(** * JALE: orchestration, input preparation and main-effect caching

    A shallow embedding of the parts of the JALE meta-analysis package that
    its specification makes checkable statements about:

    - [src/JALE/ale.py]: the row dispatchers [run_main_effect],
      [run_probabilistic_ale], [run_contrast_analysis],
      [run_balanced_contrast], and the helpers [setup_contrast_data] and
      [determine_target_n];
    - [src/JALE/core/utils/input.py]: [check_coordinates_are_numbers],
      [concat_coordinates], [transform_coordinates_to_voxel_space];
    - [src/JALE/core/analyses/main_effect.py]: the file protocol and the
      threshold computation of [main_effect] and [probabilistic_ale].

    Python values are modelled by inductive types, pandas tables by lists of
    labelled rows, the file system by a finite map from path strings to file
    contents, exceptions by a result type, and floating-point numbers by
    exact rationals. *)

From Stdlib Require Import ZArith QArith Qround Lia List Ascii String.
From stdpp Require Import base strings gmap list sorting pretty.

Local Open Scope string_scope.
Local Open Scope Z_scope.

(** ** Python runtime: exceptions, strings, paths *)

Module Py.

(** The exceptions the embedded code can raise.  An exception that
    reaches the top level ends the process; [SystemExit] is what
    [sys.exit()] raises. *)
Inductive exn :=
| TypeError (msg : string)
| ValueError (msg : string)
| KeyError (msg : string)
| IndexError
| FileNotFoundError (path : string)
| SystemExit.

Inductive result (A : Type) :=
| Ok (a : A)
| Raise (e : exn).
Arguments Ok {A} a.
Arguments Raise {A} e.

Definition rbind {A B} (r : result A) (k : A -> result B) : result B :=
  match r with
  | Ok a => k a
  | Raise e => Raise e
  end.

Definition is_ok {A} (r : result A) : bool :=
  match r with Ok _ => true | Raise _ => false end.

(** [s[1:]] *)
Definition tail_str (s : string) : string :=
  match s with
  | EmptyString => EmptyString
  | String _ t => t
  end.

(** ASCII white space, as [str.strip] and [int] skip it. *)
Definition is_space (c : ascii) : bool :=
  let n := nat_of_ascii c in
  ((9 <=? n)%nat && (n <=? 13)%nat) || (n =? 32)%nat || ((28 <=? n)%nat && (n <=? 31)%nat).

Fixpoint lstrip (s : string) : string :=
  match s with
  | String c t => if is_space c then lstrip t else s
  | EmptyString => EmptyString
  end.

Definition digit_val (c : ascii) : option Z :=
  let n := nat_of_ascii c in
  if ((48 <=? n)%nat && (n <=? 57)%nat)%bool then Some (Z.of_nat n - 48) else None.

(** Digits of an integer literal: groups of decimal digits, a single
    underscore allowed between two digits, trailing white space allowed.
    [seen] tells whether the previous character was a digit. *)
Fixpoint int_digits (s : string) (acc : Z) (seen : bool) : option Z :=
  match s with
  | EmptyString => if seen then Some acc else None
  | String c t =>
      match digit_val c with
      | Some d => int_digits t (10 * acc + d) true
      | None =>
          if (Ascii.eqb c "_" && seen)%bool then
            match t with
            | String c' _ =>
                match digit_val c' with
                | Some _ => int_digits t acc false
                | None => None
                end
            | EmptyString => None
            end
          else if (is_space c && seen)%bool then
            match lstrip t with
            | EmptyString => Some acc
            | _ => None
            end
          else None
      end
  end.

(** [int(s)] for a [str] argument, base 10, on ASCII input: optional
    surrounding white space, an optional sign, then the digits. *)
Definition int (s : string) : result Z :=
  let body := lstrip s in
  let '(sign, digits) :=
    match body with
    | String "-" t => (-1, t)
    | String "+" t => (1, t)
    | _ => (1, body)
    end in
  match int_digits digits 0 false with
  | Some n => Ok (sign * n)
  | None => Raise (ValueError ("invalid literal for int() with base 10: " +:+ s))
  end.

(** [len(s)] *)
Definition len (s : string) : Z := Z.of_nat (String.length s).

(** How an f-string renders an [int] or [None]. *)
Definition fmt_int (n : Z) : string := pretty n.

Definition fmt_opt_int (n : option Z) : string :=
  match n with
  | Some k => fmt_int k
  | None => "None"
  end.

(** [pathlib]: [p / q].  A right operand that starts with a slash is
    absolute and replaces the left one; otherwise the two are joined by
    one separator.  Paths are kept as text. *)
Definition is_absolute (q : string) : bool :=
  match q with
  | String "/" _ => true
  | _ => false
  end.

Definition path_join (p q : string) : string :=
  if is_absolute q then q else p +:+ "/" +:+ q.

End Py.

Export Py.

#[global] Instance result_ret : MRet result := @Ok.
#[global] Instance result_bind : MBind result := fun A B k r => rbind r k.
#[global] Instance result_fmap : FMap result := fun A B f r => rbind r (fun a => Ok (f a)).

(** ** Floating-point values

    Floats are modelled by exact rationals; [None] stands for [nan]. *)

Module Np.

Definition float := option Q.

(** [np.min] of a list of integers; raises on an empty one. *)
Definition min_int (l : list Z) : result Z :=
  match l with
  | [] => Raise (ValueError "zero-size array to reduction operation minimum")
  | x :: t => Ok (fold_left Z.min t x)
  end.

(** [np.mean] of a sequence of integers: a float. *)
Definition mean (l : list Z) : Q :=
  Qdiv (inject_Z (fold_right Z.add 0 l)) (inject_Z (Z.of_nat (length l))).

(** [np.floor] *)
Definition floor (q : Q) : Z := Qfloor q.

(** [np.ceil] *)
Definition ceil (q : Q) : Z := Qceiling q.

(** Ascending sort, by insertion. *)
Fixpoint insert_sorted (x : Q) (l : list Q) : list Q :=
  match l with
  | [] => [x]
  | y :: t => if Qle_bool x y then x :: l else y :: insert_sorted x t
  end.

Definition sort (l : list Q) : list Q := fold_right insert_sorted [] l.

(** [np.percentile(a, q)] with the default linear interpolation: on the
    sorted values, the virtual index is [(n - 1) * q / 100]; the result
    interpolates between its two neighbours.  An empty input gives
    [nan].  The rational result is kept in lowest terms. *)
Definition percentile (a : list Q) (q : Q) : float :=
  match sort a with
  | [] => None
  | (x0 :: _) as s =>
      let n := Z.of_nat (length s) in
      let virtual := Qdiv (Qmult (inject_Z (n - 1)) q) (inject_Z 100) in
      let previous := Z.max 0 (Z.min (n - 1) (Qfloor virtual)) in
      let next := Z.max 0 (Z.min (n - 1) (Qfloor virtual + 1)) in
      let gamma := Qminus virtual (inject_Z (Qfloor virtual)) in
      let a_prev := nth (Z.to_nat previous) s x0 in
      let a_next := nth (Z.to_nat next) s x0 in
      Some (Qred (Qplus a_prev (Qmult (Qminus a_next a_prev) gamma)))
  end.

End Np.

(** ** The world the program acts on: files, log, standard output *)

Module World.

(** What a file holds.  Arrays, tables and volumes are not looked into;
    pickles keep the vectors they were given. *)
Inductive file :=
| Blob
| PickledHistogram
| PickledNulls (vfwe cfwe tfce : list Q)
| PickledVector (cfwe : list Q).

Inductive level := INFO | WARNING.

Record world := World {
  fs : gmap string file;
  log : list (level * string);
  stdout : list string
}.

(** State and exceptions. *)
Definition M (A : Type) : Type := world -> result A * world.

Definition ret {A} (a : A) : M A := fun w => (Ok a, w).

Definition bind {A B} (m : M A) (k : A -> M B) : M B :=
  fun w =>
    match m w with
    | (Ok a, w') => k a w'
    | (Raise e, w') => (Raise e, w')
    end.

Definition raise {A} (e : exn) : M A := fun w => (Raise e, w).

Definition lift {A} (r : result A) : M A := fun w => (r, w).

(** [Path(p).exists()] *)
Definition path_exists (p : string) : M bool :=
  fun w => (Ok (bool_decide (is_Some (fs w !! p))), w).

(** Writing a file creates or replaces it. *)
Definition write_file (p : string) (f : file) : M unit :=
  fun w => (Ok tt, World (<[p := f]> (fs w)) (log w) (stdout w)).

(** Reading a file that is not there raises. *)
Definition read_file (p : string) : M file :=
  fun w =>
    match fs w !! p with
    | Some f => (Ok f, w)
    | None => (Raise (FileNotFoundError p), w)
    end.

Definition logger (l : level) (msg : string) : M unit :=
  fun w => (Ok tt, World (fs w) (log w ++ [(l, msg)]) (stdout w)).

Definition logger_info := logger INFO.
Definition logger_warning := logger WARNING.

Definition print (msg : string) : M unit :=
  fun w => (Ok tt, World (fs w) (log w) (stdout w ++ [msg])).

(** A [for] loop over a list, stopping at the first exception. *)
Fixpoint for_each {A} (l : list A) (body : A -> M unit) : M unit :=
  match l with
  | [] => ret tt
  | x :: t => bind (body x) (fun _ => for_each t body)
  end.

Definition empty_world : world := World ∅ [] [].

End World.

Export World.

#[global] Instance M_ret : MRet M := @World.ret.
#[global] Instance M_bind : MBind M := fun A B k m => World.bind m k.

(** ** pandas tables *)

Module Pd.

(** A table is the list of its rows, each with its index label. *)
Abbreviation DataFrame R := (list (Z * R)).

Section Frame.
Context {R : Type}.

(** [df.index] *)
Definition index (df : DataFrame R) : list Z := map fst df.

(** [len(df)], [df.shape[0]] *)
Definition len (df : DataFrame R) : Z := Z.of_nat (length df).

(** [df.reset_index(drop=True)]: the labels become 0, 1, 2, ... *)
Definition reset_index (df : DataFrame R) : DataFrame R :=
  imap (fun i r => (Z.of_nat i, snd r)) df.

(** [df.loc[labels]] for a list of labels: for each label in turn the
    rows that carry it; a label that no row carries raises. *)
Fixpoint loc (df : DataFrame R) (labels : list Z) : result (DataFrame R) :=
  match labels with
  | [] => Ok []
  | l :: rest =>
      match filter (fun r => fst r = l) df with
      | [] => Raise (KeyError (pretty l))
      | rows => rbind (loc df rest) (fun more => Ok (app rows more))
      end
  end.

(** [df.drop(labels)] for a set of labels: every label must be in the
    index; the rows that carry one of them go. *)
Definition drop (df : DataFrame R) (labels : gset Z) : result (DataFrame R) :=
  if decide (labels ⊆ list_to_set (index df))
  then Ok (filter (fun r => fst r ∉ labels) df)
  else Raise (KeyError "not found in axis").

(** [set(df.index)] *)
Definition index_set (df : DataFrame R) : gset Z := list_to_set (index df).

End Frame.

End Pd.

(** ** The experiment table handed to the analyses *)

(** One row of the processed experiment table, with the columns
    [read_experiment_info] keeps. *)
Record Experiment := {
  Articles : string;
  Subjects : Z;
  CoordinateSpace : string;
  Tags : list string;
  NumberOfFoci : Z;
  Coordinates : list (Z * Z * Z)
}.

Abbreviation ExperimentFrame := (Pd.DataFrame Experiment).

(** ** Calling a Python function with keyword arguments *)

Module Call.

(** A call site: how many positional arguments, and which keywords. *)
Record call := { positional : nat; keywords : list string }.

(** A parameter list: each name, and whether it has a default. *)
Definition parameters := list (string * bool).

Definition names (ps : parameters) : list string := map fst ps.

(** Argument binding: too many positional arguments, a keyword that
    names no parameter, a keyword for a parameter already given by
    position, and a parameter without default left unfilled all raise
    [TypeError]. *)
Definition bind_arguments (fname : string) (ps : parameters) (c : call) : result unit :=
  if (length ps <? positional c)%nat then
    Raise (TypeError (fname +:+ "() takes " +:+ pretty (length ps)
                      +:+ " positional arguments but " +:+ pretty (positional c) +:+ " were given"))
  else
    match filter (fun k => k ∉ names ps) (keywords c) with
    | k :: _ => Raise (TypeError (fname +:+ "() got an unexpected keyword argument '" +:+ k +:+ "'"))
    | [] =>
        match filter (fun k => k ∈ take (positional c) (names ps)) (keywords c) with
        | k :: _ => Raise (TypeError (fname +:+ "() got multiple values for argument '" +:+ k +:+ "'"))
        | [] =>
            match filter (fun p => bool_decide (snd p = false ∧ fst p ∉ keywords c))
                         (drop (positional c) ps) with
            | p :: _ => Raise (TypeError (fname +:+ "() missing required argument '" +:+ fst p +:+ "'"))
            | [] => Ok tt
            end
        end
    end.

(** The call proper: bind, then run the body. *)
Definition invoke (fname : string) (ps : parameters) (c : call) (body : M unit) : M unit :=
  lift (bind_arguments fname ps c) ;; body.

End Call.

(** ** [core/analyses/main_effect.py] *)

Module MainEffect.

(** The numerical routines of [core/utils/compute.py] and
    [core/utils/cutoff_prediction.py].  Volumes are not modelled: of
    each routine only what decides a threshold, a log line or an
    exception is kept.  [compute_monte_carlo_null] is random; its last
    argument numbers the simulated iteration. *)
Record numerics := {
  predict_cutoff : ExperimentFrame -> Np.float * Np.float * Np.float;
  compute_monte_carlo_null :
    ExperimentFrame -> Q -> Q -> bool -> option Z -> nat -> Q * Q * Q;
  generate_unique_subsamples : Z -> option Z -> Z -> result (list (list Z));
  max_ale : ExperimentFrame -> Q;
  max_clust : ExperimentFrame -> Q;
  max_tfce : ExperimentFrame -> Q
}.

(** [(Path(project_path) / sub).resolve()].  Project paths are taken to
    be absolute and free of links, so that resolving changes nothing. *)
Definition resolve (p : string) : string := p.

(** [np.save] and [np.savez_compressed] add their extension to a name
    that lacks it, as do all names they are given here. *)
Definition np_save (p : string) : M unit := write_file (p +:+ ".npy") Blob.
Definition np_savez_compressed (p : string) : M unit := write_file (p +:+ ".npz") Blob.
Definition to_csv (p : string) : M unit := write_file p Blob.

(** Modelled from the spec: [plot_and_save] of
    [core/utils/plot_and_save.py], the save primitive that writes a
    volume to the named volume file. *)
Definition plot_and_save (nii_path : string) : M unit := write_file nii_path Blob.

(** [nb.load(p).get_fdata()] *)
Definition nb_load (p : string) : M unit := read_file p ;; mret tt.

Definition pickle_load (p : string) : M file := read_file p.
Definition pickle_dump (p : string) (obj : file) : M unit := write_file p obj.

(** [a, b, c = obj]: a tuple of three vectors gives the vectors, a
    vector of three numbers gives the numbers. *)
Definition unpack3 (obj : file) : result (list Q * list Q * list Q) :=
  match obj with
  | PickledNulls v c t => Ok (v, c, t)
  | PickledVector [a; b; c] => Ok ([a], [b], [c])
  | _ => Raise (ValueError "cannot unpack into three values")
  end.

(** [a, _ = obj] *)
Definition unpack2 (obj : file) : result unit :=
  match obj with
  | PickledHistogram => Ok tt
  | PickledVector [_; _] => Ok tt
  | _ => Raise (ValueError "cannot unpack into two values")
  end.

(** What [np.percentile] sees of an unpickled object. *)
Definition as_array (obj : file) : result (list Q) :=
  match obj with
  | PickledVector c => Ok c
  | PickledNulls v c t =>
      if ((length v =? length c)%nat && (length c =? length t)%nat)%bool
      then Ok (v ++ c ++ t)%list
      else Raise (ValueError "inhomogeneous shape")
  | _ => Raise (ValueError "not an array")
  end.

(** [zip] of the starred results, unpacked into three names: with no
    result there is nothing to unpack. *)
Definition zip_star3 (results : list (Q * Q * Q)) : result (list Q * list Q * list Q) :=
  match results with
  | [] => Raise (ValueError "not enough values to unpack (expected 3, got 0)")
  | _ => Ok (map (fun r => fst (fst r)) results,
             map (fun r => snd (fst r)) results,
             map snd results)
  end.

(** [x > t] on floats: false against [nan]. *)
Definition float_gt (x : Q) (t : Np.float) : bool :=
  match t with
  | Some q => negb (Qle_bool x q)
  | None => false
  end.

Section Analyses.
Variable N : numerics.

(** The outcomes of the simulated iterations of one Monte Carlo run:
    the list comprehension over [range(monte_carlo_iterations)]. *)
Definition simulate (exp_df : ExperimentFrame) (bin_steps cluster_forming_threshold : Q)
    (tfce_enabled : bool) (target_n : option Z) (monte_carlo_iterations : nat)
    : list (Q * Q * Q) :=
  map (compute_monte_carlo_null N exp_df bin_steps cluster_forming_threshold tfce_enabled target_n)
      (seq 0 monte_carlo_iterations).

(** Lines 113-120: foci illustration. *)
Definition foci_illustration (project_path meta_name : string) : M unit :=
  e ← path_exists (path_join project_path ("/Full/Volumes/Foci/" +:+ meta_name +:+ ".nii"));
  if negb e then
    logger_info (meta_name +:+ " - illustrate Foci") ;;
    plot_and_save (path_join project_path ("Full/Volumes/" +:+ meta_name +:+ "_foci.nii"))
  else mret tt.

(** Lines 122-148: ALE map and null PDF. *)
Definition ale_calculation (project_path meta_name : string) : M unit :=
  e ← path_exists (path_join project_path ("Full/NullDistributions/" +:+ meta_name +:+ ".pickle"));
  if (e : bool) then
    logger_info (meta_name +:+ " - loading ALE") ;;
    logger_info (meta_name +:+ " - loading null PDF") ;;
    nb_load (path_join project_path ("/Full/Volumes/" +:+ meta_name +:+ "_ale.nii")) ;;
    obj ← pickle_load (path_join project_path ("/Full/NullDistributions/" +:+ meta_name +:+ ".pickle"));
    lift (unpack2 obj)
  else
    logger_info (meta_name +:+ " - computing ALE and null PDF") ;;
    plot_and_save (path_join project_path ("Full/Volumes/" +:+ meta_name +:+ "_ale.nii")) ;;
    pickle_dump (path_join project_path ("Full/NullDistributions/" +:+ meta_name +:+ "_histogram.pickle"))
                PickledHistogram.

(** Lines 150-174: z map and TFCE map. *)
Definition z_and_tfce (project_path meta_name : string) (tfce_enabled : bool) : M unit :=
  e ← path_exists (path_join project_path ("Full/Volumes/" +:+ meta_name +:+ "_z.nii"));
  (if (e : bool) then
     logger_info (meta_name +:+ " - loading z-values & TFCE") ;;
     nb_load (path_join project_path ("Full/Volumes/" +:+ meta_name +:+ "_z.nii"))
   else
     logger_info (meta_name +:+ " - computing p-values & TFCE") ;;
     plot_and_save (path_join project_path ("Full/Volumes/" +:+ meta_name +:+ "_z.nii"))) ;;
  if tfce_enabled then
    e' ← path_exists (path_join project_path ("Full/Volumes/" +:+ meta_name +:+ "_tfce_uncorrected.nii"));
    if (e' : bool) then
      nb_load (path_join project_path ("Full/Volumes/" +:+ meta_name +:+ "_tfce_uncorrected.nii"))
    else
      plot_and_save (path_join project_path ("Full/Volumes/" +:+ meta_name +:+ "_tfce_uncorrected.nii"))
  else mret tt.

(** The file that caches the Monte Carlo null of [main_effect]. *)
Definition montecarlo_pickle (project_path meta_name : string) : string :=
  path_join project_path ("Full/NullDistributions/" +:+ meta_name +:+ "_montecarlo.pickle").

(** Lines 176-216: the corrected thresholds
    [(vfwe_treshold, cfwe_threshold, tfce_threshold)]. *)
Definition monte_carlo_thresholds (project_path : string) (exp_df : ExperimentFrame)
    (meta_name : string) (tfce_enabled cutoff_predict_enabled : bool)
    (bin_steps cluster_forming_threshold : Q) (monte_carlo_iterations : nat)
    : M (Np.float * Np.float * Np.float) :=
  if cutoff_predict_enabled then
    mret (predict_cutoff N exp_df)
  else
    e ← path_exists (montecarlo_pickle project_path meta_name);
    nulls ← (if (e : bool) then
               logger_info (meta_name +:+ " - loading null") ;;
               obj ← pickle_load (montecarlo_pickle project_path meta_name);
               lift (unpack3 obj)
             else
               logger_info (meta_name +:+ " - simulating null") ;;
               nulls ← lift (zip_star3 (simulate exp_df bin_steps cluster_forming_threshold
                                                  tfce_enabled None monte_carlo_iterations));
               let '(vfwe_null, cfwe_null, tfce_null) := nulls in
               pickle_dump (montecarlo_pickle project_path meta_name)
                           (PickledNulls vfwe_null cfwe_null tfce_null) ;;
               mret nulls);
    let '(vfwe_null, cfwe_null, tfce_null) := nulls in
    mret (Np.percentile vfwe_null 95, Np.percentile cfwe_null 95, Np.percentile tfce_null 95).

(** Lines 218-251: thresholded maps. *)
Definition thresholding (project_path : string) (exp_df : ExperimentFrame) (meta_name : string)
    (tfce_enabled : bool) (thresholds : Np.float * Np.float * Np.float) : M unit :=
  let '(vfwe_treshold, cfwe_threshold, tfce_threshold) := thresholds in
  e ← path_exists (path_join project_path ("Full/Volumes/" +:+ meta_name +:+ "_vfwe.nii"));
  if negb e then
    logger_info (meta_name +:+ " - inference and printing") ;;
    plot_and_save (path_join project_path ("Full/Volumes/" +:+ meta_name +:+ "_vFWE05.nii")) ;;
    (if float_gt (max_ale N exp_df) vfwe_treshold
     then logger_info "vFWE: significant effect found." else mret tt) ;;
    plot_and_save (path_join project_path ("Full/Volumes/" +:+ meta_name +:+ "_cFWE05.nii")) ;;
    (if float_gt (max_clust N exp_df) cfwe_threshold
     then logger_info "cFWE: significant effect found." else mret tt) ;;
    if tfce_enabled then
      plot_and_save (path_join project_path ("Full/Volumes/" +:+ meta_name +:+ "_TFCE05.nii")) ;;
      (if float_gt (max_tfce N exp_df) tfce_threshold
       then logger_info "TFCE: significant effect found." else mret tt)
    else mret tt
  else
    logger_info (meta_name +:+ " - done!").

(** The parameter list of [main_effect] (lines 30-40). *)
Definition main_effect_parameters : Call.parameters :=
  [("project_path", false); ("exp_df", false); ("meta_name", false);
   ("tfce_enabled", true); ("cutoff_predict_enabled", true); ("bin_steps", true);
   ("cluster_forming_threshold", true); ("monte_carlo_iterations", true);
   ("nprocesses", true)].

(** [main_effect]: what it writes, reads and logs. *)
Definition main_effect (project_path : string) (exp_df : ExperimentFrame) (meta_name : string)
    (tfce_enabled cutoff_predict_enabled : bool) (bin_steps cluster_forming_threshold : Q)
    (monte_carlo_iterations : nat) (nprocesses : Z) : M unit :=
  let project_path := resolve (path_join project_path "Results/MainEffect") in
  np_save (path_join project_path (meta_name +:+ "_kernels")) ;;
  to_csv (path_join project_path (meta_name +:+ "_included_experiments.csv")) ;;
  np_savez_compressed (path_join project_path (meta_name +:+ "_ma")) ;;
  foci_illustration project_path meta_name ;;
  ale_calculation project_path meta_name ;;
  z_and_tfce project_path meta_name tfce_enabled ;;
  thresholds ← monte_carlo_thresholds project_path exp_df meta_name tfce_enabled
                 cutoff_predict_enabled bin_steps cluster_forming_threshold
                 monte_carlo_iterations;
  thresholding project_path exp_df meta_name tfce_enabled thresholds.

(** The file [probabilistic_ale] looks for before it simulates, and
    the file it writes the simulated null to (lines 300-335). *)
Definition cv_pickle_checked (project_path meta_name : string) (target_n : option Z) : string :=
  path_join project_path
    ("CV/NullDistributions/" +:+ meta_name +:+ "_montecarlo_" +:+ fmt_opt_int target_n +:+ ".pickle").

Definition cv_pickle_written (project_path meta_name : string) (target_n : option Z) : string :=
  path_join project_path
    ("NullDistributions/" +:+ meta_name +:+ "_montecarlo_" +:+ fmt_opt_int target_n +:+ ".pickle").

(** Lines 297-335: the cluster cut-off of the subsampled analysis. *)
Definition cv_cluster_cutoff (project_path : string) (exp_df : ExperimentFrame)
    (meta_name : string) (bin_steps cluster_forming_threshold : Q)
    (monte_carlo_iterations : nat) (target_n : option Z) : M Np.float :=
  logger_info (meta_name +:+ " - entering probabilistic ALE routine.") ;;
  e ← path_exists (cv_pickle_checked project_path meta_name target_n);
  if (e : bool) then
    logger_info (meta_name +:+ " - loading cv cluster cut-off.") ;;
    obj ← pickle_load (cv_pickle_checked project_path meta_name target_n);
    cfwe_null ← lift (as_array obj);
    mret (Np.percentile cfwe_null 95)
  else
    logger_info (meta_name +:+ " - computing cv cluster cut-off.") ;;
    nulls ← lift (zip_star3 (simulate exp_df bin_steps cluster_forming_threshold
                                       false target_n monte_carlo_iterations));
    let '(_, cfwe_null, _) := nulls in
    pickle_dump (cv_pickle_written project_path meta_name target_n) (PickledVector cfwe_null) ;;
    mret (Np.percentile cfwe_null 95).

(** Lines 336-363: the subsampled ALE map. *)
Definition cv_ale (project_path : string) (exp_df : ExperimentFrame) (meta_name : string)
    (target_n : option Z) (sample_n : Z) : M unit :=
  let volume :=
    path_join project_path
      ("Volumes/" +:+ meta_name +:+ "_sub_ale_" +:+ fmt_opt_int target_n +:+ ".nii") in
  e ← path_exists volume;
  if (e : bool) then
    logger_info (meta_name +:+ " - loading cv ale") ;;
    nb_load volume
  else
    logger_info (meta_name +:+ " - computing cv ale.") ;;
    lift (generate_unique_subsamples N (Pd.len exp_df) target_n sample_n) ;;
    plot_and_save volume ;;
    logger_info (meta_name +:+ " - probabilistic ALE done!").

(** [probabilistic_ale] as [main_effect.py] defines it (lines 254-363). *)
Definition probabilistic_ale (project_path : string) (exp_df : ExperimentFrame)
    (meta_name : string) (tfce_enabled cutoff_predict_enabled : bool)
    (bin_steps cluster_forming_threshold : Q) (monte_carlo_iterations : nat)
    (target_n : option Z) (sample_n : Z) (nprocesses : Z) : M unit :=
  let project_path := resolve (path_join project_path "Results/MainEffect/CV") in
  np_save (path_join project_path (meta_name +:+ "_kernels")) ;;
  to_csv (path_join project_path (meta_name +:+ "_included_experiments.csv")) ;;
  np_savez_compressed (path_join project_path (meta_name +:+ "_ma")) ;;
  cv_cluster_cutoff project_path exp_df meta_name bin_steps cluster_forming_threshold
    monte_carlo_iterations target_n ;;
  cv_ale project_path exp_df meta_name target_n sample_n.

End Analyses.

End MainEffect.

(** ** [ale.py] *)

Module Ale.

(** The analysis table: rows of cells, a cell being a string or empty
    ([nan], here [None]). *)
Definition AnalysisFrame := list (list (option string)).

(** [analysis_df.iloc[row, col]] *)
Definition iloc (df : AnalysisFrame) (row col : nat) : result (option string) :=
  match df !! row with
  | Some cells =>
      match cells !! col with
      | Some c => Ok c
      | None => Raise IndexError
      end
  | None => Raise IndexError
  end.

(** [analysis_df.iloc[row, 2:].dropna().to_list()] *)
Definition conditions_of (df : AnalysisFrame) (row : nat) : result (list string) :=
  match df !! row with
  | Some cells => Ok (omap id (drop 2 cells))
  | None => Raise IndexError
  end.

(** A cell inside an f-string. *)
Definition fmt_cell (c : option string) : string :=
  match c with
  | Some s => s
  | None => "nan"
  end.

(** A cell used as a string ([len], slicing): an empty cell is a float. *)
Definition as_str (c : option string) : result string :=
  match c with
  | Some s => Ok s
  | None => Raise (TypeError "object of type 'float' has no len()")
  end.

(** The [parameters] mapping of the configuration, with every key the
    dispatchers read. *)
Record Params := {
  tfce_enabled : bool;
  cutoff_predict_enabled : bool;
  bin_steps : Q;
  cluster_forming_threshold : Q;
  monte_carlo_iterations : nat;
  nprocesses : Z;
  subsample_n : Z;
  significance_threshold : Q;
  contrast_permutations : Z;
  difference_iterations : Z
}.

Section Dispatch.
(** The task table and the region masks are only handed on. *)
Context {Tasks Mask : Type}.

(** The functions [ale.py] imports from modules other than
    [main_effect.py]. *)
Record collaborators := {
  numerics_of : MainEffect.numerics;
  compile_experiments : list string -> Tasks -> result (list Z * list Mask * list string);
  contribution : string -> ExperimentFrame -> string -> Tasks -> bool -> M unit;
  roi_ale : string -> ExperimentFrame -> string -> Mask -> string -> nat -> M unit;
  probabilistic_ale : string -> ExperimentFrame -> string -> Z -> nat -> Z -> Z -> M unit;
  contrast : string -> list string -> Q -> Z -> Z -> M unit;
  balanced_contrast :
    string -> list ExperimentFrame -> list string -> Z -> Z -> nat -> Z -> M unit
}.

Variable C : collaborators.

(** [exp_all_df.loc[exp_idxs].reset_index(drop=True)] *)
Definition select_experiments (exp_all_df : ExperimentFrame) (exp_idxs : list Z)
    : result ExperimentFrame :=
  rbind (Pd.loc exp_all_df exp_idxs) (fun df => Ok (Pd.reset_index df)).

(** The keyword call of [main_effect] that [run_main_effect] and
    [run_contrast_analysis] make. *)
Definition full_call : Call.call :=
  {| Call.positional := 3;
     Call.keywords := ["tfce_enabled"; "cutoff_predict_enabled"; "bin_steps";
                       "cluster_forming_threshold"; "monte_carlo_iterations"; "nprocesses"] |}.

Definition call_main_effect_full (project_path : string) (exp_df : ExperimentFrame)
    (meta_name : string) (params : Params) : M unit :=
  Call.invoke "main_effect" MainEffect.main_effect_parameters full_call
    (MainEffect.main_effect (numerics_of C) project_path exp_df meta_name
       (tfce_enabled params) (cutoff_predict_enabled params) (bin_steps params)
       (cluster_forming_threshold params) (monte_carlo_iterations params)
       (nprocesses params)).

(** The path [run_main_effect] and [run_contrast_analysis] look for. *)
Definition main_effect_result_path (project_path meta_name : string) : string :=
  path_join project_path ("Results/MainEffect/Volumes/" +:+ meta_name +:+ "_cFWE.nii").

(** [run_main_effect] (lines 44-79). *)
Definition run_main_effect (analysis_df : AnalysisFrame) (row_idx : nat)
    (project_path : string) (params : Params) (exp_all_df : ExperimentFrame)
    (tasks : Tasks) : M unit :=
  cell ← lift (iloc analysis_df row_idx 1);
  let meta_name := fmt_cell cell in
  let result_path := main_effect_result_path project_path meta_name in
  e ← path_exists result_path;
  if (e : bool) then
    logger_info ("Main Effect results for " +:+ meta_name +:+ " already exist.")
  else
    logger_info "Running Main-Effect Analysis" ;;
    conditions ← lift (conditions_of analysis_df row_idx);
    compiled ← lift (compile_experiments C conditions tasks);
    let '(exp_idxs, masks, mask_names) := compiled in
    exp_df ← lift (select_experiments exp_all_df exp_idxs);
    call_main_effect_full project_path exp_df meta_name params ;;
    contribution C project_path exp_df meta_name tasks (tfce_enabled params) ;;
    for_each (imap (fun idx mask => (idx, mask)) masks)
      (fun im =>
         match mask_names !! fst im with
         | Some name =>
             roi_ale C project_path exp_df meta_name (snd im) name
               (monte_carlo_iterations params)
         | None => raise IndexError
         end).

(** [run_probabilistic_ale] (lines 110-143). *)
Definition run_probabilistic_ale (analysis_df : AnalysisFrame) (row_idx : nat)
    (project_path : string) (params : Params) (exp_all_df : ExperimentFrame)
    (tasks : Tasks) : M unit :=
  cell ← lift (iloc analysis_df row_idx 1);
  let meta_name := fmt_cell cell in
  code ← lift (rbind (iloc analysis_df row_idx 0) as_str);
  target_n ← lift (if (1 <? Py.len code)%Z
                    then rbind (Py.int (tail_str code)) (fun n => Ok (Some n))
                    else Ok None);
  let result_path :=
    path_join project_path
      ("Results/Probabilistic/Volumes/" +:+ meta_name +:+ "_sub_ale_"
       +:+ fmt_opt_int target_n +:+ ".nii") in
  e ← path_exists result_path;
  if (e : bool) then
    logger_info ("Probabilistic ALE results for " +:+ meta_name +:+ " already exist.")
  else
    logger_info "Running Probabilistic ALE" ;;
    conditions ← lift (conditions_of analysis_df row_idx);
    compiled ← lift (compile_experiments C conditions tasks);
    let '(exp_idxs, _, _) := compiled in
    exp_df ← lift (select_experiments exp_all_df exp_idxs);
    match target_n with
    | Some n =>
        if (n =? 0)%Z then
          logger_warning (meta_name +:+ ": Need to specify subsampling N")
        else
          probabilistic_ale C project_path exp_df meta_name n
            (monte_carlo_iterations params) (subsample_n params) (nprocesses params)
    | None =>
        logger_warning (meta_name +:+ ": Need to specify subsampling N")
    end.

(** [setup_contrast_data] (lines 297-309). *)
Definition setup_contrast_data (analysis_df : AnalysisFrame) (row_idx : nat)
    (exp_all_df : ExperimentFrame) (tasks : Tasks)
    : result (list string * list ExperimentFrame) :=
  name1 ← iloc analysis_df row_idx 1;
  name2 ← iloc analysis_df (row_idx + 1) 1;
  conditions1 ← conditions_of analysis_df row_idx;
  conditions2 ← conditions_of analysis_df (row_idx + 1);
  compiled1 ← compile_experiments C conditions1 tasks;
  compiled2 ← compile_experiments C conditions2 tasks;
  exp_df1 ← select_experiments exp_all_df (fst (fst compiled1));
  exp_df2 ← select_experiments exp_all_df (fst (fst compiled2));
  Ok ([fmt_cell name1; fmt_cell name2], [exp_df1; exp_df2]).

(** Lines 198-199 of [run_contrast_analysis]: the overlap of the two
    index sets, dropped from both tables. *)
Definition remove_overlap (exp_dfs : list ExperimentFrame) : result (list ExperimentFrame) :=
  match exp_dfs with
  | df0 :: df1 :: _ =>
      let exp_overlap := Pd.index_set df0 ∩ Pd.index_set df1 in
      df0' ← Pd.drop df0 exp_overlap;
      df1' ← Pd.drop df1 exp_overlap;
      Ok [df0'; df1']
  | _ => Raise IndexError
  end.

(** [run_contrast_analysis] (lines 174-207). *)
Definition run_contrast_analysis (analysis_df : AnalysisFrame) (row_idx : nat)
    (project_path : string) (params : Params) (exp_all_df : ExperimentFrame)
    (tasks : Tasks) : M unit :=
  setup ← lift (setup_contrast_data analysis_df row_idx exp_all_df tasks);
  let '(meta_names, exp_dfs) := setup in
  for_each (imap (fun idx meta_name => (idx, meta_name)) meta_names)
    (fun im =>
       let meta_name := snd im in
       e ← path_exists (main_effect_result_path project_path meta_name);
       if negb e then
         logger_info ("Running main effect for " +:+ meta_name
                      +:+ " as prerequisite for contrast analysis") ;;
         match exp_dfs !! fst im with
         | Some exp_df =>
             call_main_effect_full project_path exp_df meta_name params ;;
             contribution C project_path exp_df meta_name tasks (tfce_enabled params)
         | None => raise IndexError
         end
       else mret tt) ;;
  lift (remove_overlap exp_dfs) ;;
  contrast C project_path meta_names (significance_threshold params)
    (contrast_permutations params) (nprocesses params).

(** [determine_target_n] (lines 328-331). *)
Definition determine_target_n (row_value : string) (exp_dfs : list ExperimentFrame)
    : result Z :=
  if (1 <? Py.len row_value)%Z then Py.int (tail_str row_value)
  else
    match exp_dfs with
    | df0 :: df1 :: _ =>
        let n := [Pd.len df0; Pd.len df1] in
        smallest ← Np.min_int n;
        Ok (Z.min (Np.floor (Np.mean [smallest; 17])) (smallest - 2))
    | _ => Raise IndexError
    end.

(** The keyword call of [main_effect] that [run_balanced_contrast]
    makes (lines 251-259). *)
Definition subsampling_call : Call.call :=
  {| Call.positional := 3;
     Call.keywords := ["target_n"; "monte_carlo_iterations"; "sample_n"; "nprocesses"] |}.

(** The path [run_balanced_contrast] looks for. *)
Definition sub_ale_result_path (project_path meta_name : string) (target_n : Z) : string :=
  path_join project_path
    ("Results/MainEffect/Volumes/" +:+ meta_name +:+ "_sub_ale_" +:+ fmt_int target_n +:+ ".nii").

(** [run_balanced_contrast] (lines 237-269).  The parameters the
    call leaves out take the defaults of [main_effect]. *)
Definition run_balanced_contrast (analysis_df : AnalysisFrame) (row_idx : nat)
    (project_path : string) (params : Params) (exp_all_df : ExperimentFrame)
    (tasks : Tasks) : M unit :=
  setup ← lift (setup_contrast_data analysis_df row_idx exp_all_df tasks);
  let '(meta_names, exp_dfs) := setup in
  code ← lift (rbind (iloc analysis_df row_idx 0) as_str);
  target_n ← lift (determine_target_n code exp_dfs);
  for_each (imap (fun idx meta_name => (idx, meta_name)) meta_names)
    (fun im =>
       let meta_name := snd im in
       e ← path_exists (sub_ale_result_path project_path meta_name target_n);
       if negb e then
         logger_info ("Running subsampling ale for " +:+ meta_name
                      +:+ " as prerequisite for balanced contrast analysis") ;;
         match exp_dfs !! fst im with
         | Some exp_df =>
             Call.invoke "main_effect" MainEffect.main_effect_parameters subsampling_call
               (MainEffect.main_effect (numerics_of C) project_path exp_df meta_name
                  true true (1 # 10000) (1 # 1000) (monte_carlo_iterations params)
                  (nprocesses params))
         | None => raise IndexError
         end
       else mret tt) ;;
  balanced_contrast C project_path exp_dfs meta_names target_n
    (difference_iterations params) (monte_carlo_iterations params) 2.

End Dispatch.

End Ale.

(** ** [core/utils/input.py] *)

Module Input.

(** A spreadsheet cell as pandas holds it, and the type of a column. *)
Inductive cell :=
| Float (q : Q)
| NaN
| Int (z : Z)
| Str (s : string).

Inductive dtype := float64 | int64 | object.

(** One line of the experiment sheet after [load_excel]. *)
Record RawRow := {
  raw_Articles : option string;
  raw_Subjects : cell;
  raw_x : cell;
  raw_y : cell;
  raw_z : cell;
  raw_CoordinateSpace : option string;
  raw_Tags : list string
}.

(** The sheet: its lines with their index labels, and the type pandas
    gave each coordinate column. *)
Record RawFrame := {
  rows : Pd.DataFrame RawRow;
  dtype_x : dtype;
  dtype_y : dtype;
  dtype_z : dtype
}.

Inductive coord := x | y | z.

Definition coord_name (c : coord) : string :=
  match c with x => "x" | y => "y" | z => "z" end.

Definition coord_dtype (df : RawFrame) (c : coord) : dtype :=
  match c with x => dtype_x df | y => dtype_y df | z => dtype_z df end.

Definition coord_cell (c : coord) (r : RawRow) : cell :=
  match c with x => raw_x r | y => raw_y r | z => raw_z r end.

(** A column type agrees with the cells of the column: a float column
    holds floats and gaps, an integer column integers, an object column
    anything. *)
Definition cell_fits (d : dtype) (c : cell) : bool :=
  match d, c with
  | float64, (Float _ | NaN) => true
  | int64, Int _ => true
  | object, _ => true
  | _, _ => false
  end.

Definition well_typed (df : RawFrame) : Prop :=
  ∀ c r, r ∈ rows df → cell_fits (coord_dtype df c) (coord_cell c (snd r)) = true.

(** A cell that holds a number. *)
Definition is_number (c : cell) : bool :=
  match c with
  | Float _ | Int _ => true
  | NaN | Str _ => false
  end.

(** [pd.api.types.is_float_dtype] *)
Definition is_float_dtype (d : dtype) : bool :=
  match d with float64 => true | _ => false end.

(** [pd.to_numeric(column, errors="coerce")] on one cell; [parse] reads
    a number off a string, as pandas does. *)
Definition to_numeric (parse : string -> option Q) (c : cell) : option Q :=
  match c with
  | Float q => Some q
  | NaN => None
  | Int n => Some (inject_Z n)
  | Str s => parse s
  end.

(** [coerced.isnull() | (coerced % 1 != 0)] on one cell *)
Definition non_integer (v : option Q) : bool :=
  match v with
  | None => true
  | Some q => negb (Qeq_bool q (inject_Z (Qfloor q)))
  end.

(** How numpy prints an array of integers on one line: right-aligned
    to the widest element. *)
Fixpoint pad_left (width : nat) (s : string) : string :=
  if (String.length s <? width)%nat
  then match width with
       | O => s
       | S w => " " +:+ pad_left w s
       end
  else s.

Definition fmt_array (l : list Z) : string :=
  let items := map (fun n : Z => pretty n) l in
  let width := foldr Nat.max 0%nat (map String.length items) in
  "[" +:+ String.concat " " (map (pad_left width) items) +:+ "]".

(** Lines 117-129: the check of one coordinate column.  Returns whether
    the column passed. *)
Definition check_column (parse : string -> option Q) (df : RawFrame) (c : coord) : M bool :=
  let coord_col_all_number_bool := is_float_dtype (coord_dtype df c) in
  if negb coord_col_all_number_bool then
    let rows_with_errors :=
      map fst (filter (fun r => non_integer (to_numeric parse (coord_cell c (snd r))) = true)
                      (rows df)) in
    print ("Non-numeric Coordinates in column " +:+ coord_name c +:+ ": "
           +:+ fmt_array (map (fun l => l + 2) rows_with_errors)) ;;
    mret false
  else mret true.

(** [check_coordinates_are_numbers] (lines 113-135). *)
Definition check_coordinates_are_numbers (parse : string -> option Q) (df : RawFrame)
    : M RawFrame :=
  ok_x ← check_column parse df x;
  ok_y ← check_column parse df y;
  ok_z ← check_column parse df z;
  let all_coord_numbers_flag := (ok_x && ok_y && ok_z)%bool in
  if negb all_coord_numbers_flag then raise SystemExit
  else mret {| rows := Pd.reset_index (rows df);
               dtype_x := dtype_x df; dtype_y := dtype_y df; dtype_z := dtype_z df |}.

(** One row of the table [concat_coordinates] returns.  The two new
    columns start out empty ([nan]) in the second layout. *)
Record ConcatRow := {
  cc_Articles : option string;
  cc_Subjects : cell;
  cc_CoordinateSpace : option string;
  cc_Tags : list string;
  cc_Coordinates_mm : option (list (cell * cell * cell));
  cc_NumberOfFoci : option Z
}.

(** [np.array((x, y, z)).T]: the rows of the transposed array are the
    coordinate triplets. *)
Fixpoint array_T (xs ys zs : list cell) : list (cell * cell * cell) :=
  match xs, ys, zs with
  | a :: xs', b :: ys', c :: zs' => (a, b, c) :: array_T xs' ys' zs'
  | _, _, _ => []
  end.

(** [arr.shape[0]] *)
Definition shape0 {A} (arr : list A) : Z := Z.of_nat (length arr).

(** Ascending sort of the group keys, without repetition, as [groupby]
    orders its groups. *)
Fixpoint insert_key (k : string) (l : list string) : list string :=
  match l with
  | [] => [k]
  | k' :: t =>
      if String.eqb k k' then l
      else if String.leb k k' then k :: l
      else k' :: insert_key k t
  end.

Definition group_keys (exp_info : Pd.DataFrame RawRow) : list string :=
  foldr insert_key [] (omap (fun r => raw_Articles (snd r)) exp_info).

Definition group (exp_info : Pd.DataFrame RawRow) (k : string) : list RawRow :=
  map snd (filter (fun r => raw_Articles (snd r) = Some k) exp_info).

(** [groupby(...).first()]: the first entry of the group that is not
    null, per column. *)
Definition isnull (c : cell) : bool :=
  match c with NaN => true | _ => false end.

Definition first_cell (l : list cell) : cell :=
  match filter (fun c => isnull c = false) l with
  | c :: _ => c
  | [] => NaN
  end.

Definition first_some {A} (l : list (option A)) : option A :=
  match omap id l with
  | a :: _ => Some a
  | [] => None
  end.

(** Lines 158-176: the layout with every cell filled in. *)
Definition concat_filled (exp_info : Pd.DataFrame RawRow) : Pd.DataFrame ConcatRow :=
  Pd.reset_index
    (map (fun k =>
            let g := group exp_info k in
            let Coordinates_mm := array_T (map raw_x g) (map raw_y g) (map raw_z g) in
            (0, {| cc_Articles := Some k;
                   cc_Subjects := first_cell (map raw_Subjects g);
                   cc_CoordinateSpace := first_some (map raw_CoordinateSpace g);
                   cc_Tags := match g with r :: _ => raw_Tags r | [] => [] end;
                   cc_Coordinates_mm := Some Coordinates_mm;
                   cc_NumberOfFoci := Some (shape0 Coordinates_mm) |}))
         (group_keys exp_info)).

(** [exp_info.loc[a:b]], a slice by label with both ends included, on
    an index in increasing order. *)
Definition loc_slice (exp_info : Pd.DataFrame RawRow) (a b : Z) : Pd.DataFrame RawRow :=
  filter (fun r => (a ≤ fst r ≤ b)%Z) exp_info.

(** The first line of an article block, with the new columns empty. *)
Definition first_line (r : RawRow) : ConcatRow :=
  {| cc_Articles := raw_Articles r;
     cc_Subjects := raw_Subjects r;
     cc_CoordinateSpace := raw_CoordinateSpace r;
     cc_Tags := raw_Tags r;
     cc_Coordinates_mm := None;
     cc_NumberOfFoci := None |}.

(** Lines 198-208: one turn of the loop over the article blocks. *)
Definition concat_block (exp_info : Pd.DataFrame RawRow) (article_rows end_of_articles : list Z)
    (firstlines : result (Pd.DataFrame ConcatRow)) (i : nat)
    : result (Pd.DataFrame ConcatRow) :=
  lines ← firstlines;
  match article_rows !! i, end_of_articles !! i with
  | Some a, Some b =>
      let block := map snd (loc_slice exp_info a b) in
      let xs := map raw_x block in
      let ys := map raw_y block in
      let zs := map raw_z block in
      let coordinate_array := array_T xs ys zs in
      Ok (alter (fun lr =>
                   (fst lr,
                    {| cc_Articles := cc_Articles (snd lr);
                       cc_Subjects := cc_Subjects (snd lr);
                       cc_CoordinateSpace := cc_CoordinateSpace (snd lr);
                       cc_Tags := cc_Tags (snd lr);
                       cc_Coordinates_mm := Some coordinate_array;
                       cc_NumberOfFoci := Some (Z.of_nat (length xs)) |}))
                i lines)
  | _, _ => Raise IndexError
  end.

(** Lines 181-208: the layout with article data on the first line of
    each block only. *)
Definition concat_first_lines (exp_info : Pd.DataFrame RawRow)
    : result (Pd.DataFrame ConcatRow) :=
  let article_rows :=
    map fst (filter (fun r => raw_Articles (snd r) ≠ None) exp_info) in
  let end_of_articles := map (fun l => l - 1) article_rows in
  match end_of_articles with
  | [] => Raise IndexError
  | _ :: popped =>
      let end_of_articles := (popped ++ [Pd.len exp_info])%list in
      let firstlines :=
        selected ← Pd.loc exp_info article_rows;
        Ok (Pd.reset_index (map (fun r => (fst r, first_line (snd r))) selected)) in
      foldl (concat_block exp_info article_rows end_of_articles) firstlines
            (seq 0 (length article_rows))
  end.

(** [concat_coordinates] (lines 157-210). *)
Definition concat_coordinates (exp_info : Pd.DataFrame RawRow)
    : result (Pd.DataFrame ConcatRow) :=
  if (length (filter (fun r => raw_Articles (snd r) = None) exp_info) =? 0)%nat
  then Ok (concat_filled exp_info)
  else concat_first_lines exp_info.

(** One row of the table [transform_coordinates_to_voxel_space] is
    given: coordinates in millimetres, all of them numbers. *)
Record MmRow := {
  mm_Articles : option string;
  mm_Subjects : cell;
  mm_CoordinateSpace : option string;
  mm_Tags : list string;
  mm_Coordinates_mm : list (Q * Q * Q);
  mm_NumberOfFoci : Z
}.

(** The same row with the new [Coordinates] column. *)
Record VoxelRow := {
  vx_row : MmRow;
  vx_Coordinates : list (Z * Z * Z)
}.

(** A four by four matrix, by rows. *)
Definition vec4 : Type := Q * Q * Q * Q.

Record matrix4 := { m_row0 : vec4; m_row1 : vec4; m_row2 : vec4; m_row3 : vec4 }.

Definition dot4 (r p : vec4) : Q :=
  let '(r0, r1, r2, r3) := r in
  let '(p0, p1, p2, p3) := p in
  Qplus (Qplus (Qplus (Qmult r0 p0) (Qmult r1 p1)) (Qmult r2 p2)) (Qmult r3 p3).

(** [np.pad(..., ((0, 0), (0, 1)), constant_values=[1])] on one point *)
Definition pad (p : Q * Q * Q) : vec4 :=
  let '(px, py, pz) := p in (px, py, pz, inject_Z 1).

(** Line 295 on one point: product with the inverse affine, rounded
    up, the first three components kept, as integers.
    [inv_affine] is [np.linalg.inv(MNI_AFFINE)]; the constant
    [MNI_AFFINE] comes from [core/utils/template.py]. *)
Definition to_voxel (inv_affine : matrix4) (xyzmm : Q * Q * Q) : Z * Z * Z :=
  (Np.ceil (dot4 (m_row0 inv_affine) (pad xyzmm)),
   Np.ceil (dot4 (m_row1 inv_affine) (pad xyzmm)),
   Np.ceil (dot4 (m_row2 inv_affine) (pad xyzmm))).

Definition thresholds : Z * Z * Z := (90, 108, 90).

(** [np.minimum(point, thresholds)] *)
Definition minimum (v t : Z * Z * Z) : Z * Z * Z :=
  let '(v0, v1, v2) := v in
  let '(t0, t1, t2) := t in
  (Z.min v0 t0, Z.min v1 t1, Z.min v2 t2).

(** [transform_coordinates_to_voxel_space] (lines 285-305). *)
Definition transform_coordinates_to_voxel_space (inv_affine : matrix4)
    (exp_info : Pd.DataFrame MmRow) : M (Pd.DataFrame VoxelRow) :=
  let with_coordinates :=
    map (fun r => (fst r, {| vx_row := snd r;
                             vx_Coordinates := map (to_voxel inv_affine)
                                                   (mm_Coordinates_mm (snd r)) |}))
        exp_info in
  mret (map (fun r => (fst r, {| vx_row := vx_row (snd r);
                                 vx_Coordinates := map (fun v => minimum v thresholds)
                                                       (vx_Coordinates (snd r)) |}))
            with_coordinates).

(** The grid of the template: 91 by 109 by 91 voxels. *)
Definition in_grid (v : Z * Z * Z) : Prop :=
  let '(v0, v1, v2) := v in
  (0 ≤ v0 ≤ 90)%Z ∧ (0 ≤ v1 ≤ 108)%Z ∧ (0 ≤ v2 ≤ 90)%Z.

End Input.

(** * Example data *)

(** Collaborators that do nothing, for running the dispatchers on
    examples: no experiment is selected, no file is touched. *)
Definition idle_numerics : MainEffect.numerics :=
  {| MainEffect.predict_cutoff := fun _ => (Some (inject_Z 1), Some (inject_Z 1), Some (inject_Z 1));
     MainEffect.compute_monte_carlo_null :=
       fun _ _ _ _ _ i => (inject_Z (Z.of_nat i), inject_Z (10 + Z.of_nat i), inject_Z (100 + Z.of_nat i));
     MainEffect.generate_unique_subsamples := fun _ _ _ => Ok [];
     MainEffect.max_ale := fun _ => inject_Z 0;
     MainEffect.max_clust := fun _ => inject_Z 0;
     MainEffect.max_tfce := fun _ => inject_Z 0 |}.

Definition idle : @Ale.collaborators unit unit :=
  {| Ale.numerics_of := idle_numerics;
     Ale.compile_experiments := fun _ _ => Ok ([], [], []);
     Ale.contribution := fun _ _ _ _ _ => mret tt;
     Ale.roi_ale := fun _ _ _ _ _ _ => mret tt;
     Ale.probabilistic_ale := fun _ _ _ _ _ _ _ => mret tt;
     Ale.contrast := fun _ _ _ _ _ => mret tt;
     Ale.balanced_contrast := fun _ _ _ _ _ _ _ => mret tt |}.

Definition some_params : Ale.Params :=
  {| Ale.tfce_enabled := true;
     Ale.cutoff_predict_enabled := false;
     Ale.bin_steps := 1 # 10000;
     Ale.cluster_forming_threshold := 1 # 1000;
     Ale.monte_carlo_iterations := 3;
     Ale.nprocesses := 2;
     Ale.subsample_n := 2500;
     Ale.significance_threshold := 5 # 100;
     Ale.contrast_permutations := 10000;
     Ale.difference_iterations := 1000 |}.

(** Four experiments, and collaborators that resolve the tag "+visual"
    to the first three of them and "+motor" to the last two. *)
Definition experiment (name : string) : Experiment :=
  {| Articles := name; Subjects := 20; CoordinateSpace := "MNI"; Tags := [];
     NumberOfFoci := 1; Coordinates := [(39, 72, 60)] |}.

Definition four_experiments : ExperimentFrame :=
  [(0, experiment "Abel 2001"); (1, experiment "Baker 2004");
   (2, experiment "Chen 2010"); (3, experiment "Diaz 2015")].

Definition by_tag (conditions : list string) : list Z :=
  match conditions with
  | [tag] =>
      if String.eqb tag "+visual" then [0; 1; 2]
      else if String.eqb tag "+motor" then [2; 3]
      else []
  | _ => []
  end.

Definition tagged : @Ale.collaborators unit unit :=
  {| Ale.numerics_of := idle_numerics;
     Ale.compile_experiments := fun conditions _ => Ok (by_tag conditions, [], []);
     Ale.contribution := fun _ _ _ _ _ => mret tt;
     Ale.roi_ale := fun _ _ _ _ _ _ => mret tt;
     Ale.probabilistic_ale := fun _ _ _ _ _ _ _ => mret tt;
     Ale.contrast := fun _ _ _ _ _ => mret tt;
     Ale.balanced_contrast := fun _ _ _ _ _ _ _ => mret tt |}.

(** Two rows of the analysis sheet that ask for a contrast, and two that
    ask for a balanced contrast with subsamples of one experiment. *)
Definition contrast_rows : Ale.AnalysisFrame :=
  [[Some "C"; Some "Visual"; Some "+visual"]; [None; Some "Motor"; Some "+motor"]].

Definition balanced_rows : Ale.AnalysisFrame :=
  [[Some "B1"; Some "Visual"; Some "+visual"]; [None; Some "Motor"; Some "+motor"]].

(** A sheet in the layout with every cell filled in, whose coordinates
    are whole numbers on every line, and which pandas therefore reads
    into integer columns. *)
Definition sheet_line (article : string) (cx cy cz : Z) : Input.RawRow :=
  {| Input.raw_Articles := Some article;
     Input.raw_Subjects := Input.Int 20;
     Input.raw_x := Input.Int cx;
     Input.raw_y := Input.Int cy;
     Input.raw_z := Input.Int cz;
     Input.raw_CoordinateSpace := Some "MNI";
     Input.raw_Tags := ["visual"] |}.

Definition integer_sheet : Input.RawFrame :=
  {| Input.rows := [(0, sheet_line "Abel 2001" 12 18 48);
                    (1, sheet_line "Abel 2001" (-30) 22 4);
                    (2, sheet_line "Baker 2004" 44 (-60) 10)];
     Input.dtype_x := Input.int64;
     Input.dtype_y := Input.int64;
     Input.dtype_z := Input.int64 |}.

(** The inverse of the affine of a grid of 2 mm voxels with its origin
    at voxel (45, 63, 36), as the MNI152 template has it; the focus at
    (12, 18, 48) mm falls into voxel (39, 72, 60). *)
Definition inverse_affine_2mm : Input.matrix4 :=
  {| Input.m_row0 := (-1 # 2, 0 # 1, 0 # 1, 45 # 1)%Q;
     Input.m_row1 := (0 # 1, 1 # 2, 0 # 1, 63 # 1)%Q;
     Input.m_row2 := (0 # 1, 0 # 1, 1 # 2, 36 # 1)%Q;
     Input.m_row3 := (0 # 1, 0 # 1, 0 # 1, 1 # 1)%Q |}.

Definition one_focus (p : Q * Q * Q) : Input.MmRow :=
  {| Input.mm_Articles := Some "Abel 2001";
     Input.mm_Subjects := Input.Int 20;
     Input.mm_CoordinateSpace := Some "MNI";
     Input.mm_Tags := ["visual"];
     Input.mm_Coordinates_mm := [p];
     Input.mm_NumberOfFoci := 1 |}.

(** A sheet in the layout with article data on the first line of each
    block only. *)
Definition block_line (article : option string) (cx cy cz : Q) : Input.RawRow :=
  {| Input.raw_Articles := article;
     Input.raw_Subjects := match article with Some _ => Input.Int 20 | None => Input.NaN end;
     Input.raw_x := Input.Float cx;
     Input.raw_y := Input.Float cy;
     Input.raw_z := Input.Float cz;
     Input.raw_CoordinateSpace := match article with Some _ => Some "MNI" | None => None end;
     Input.raw_Tags := [] |}.

Definition block_sheet : Pd.DataFrame Input.RawRow :=
  [(0, block_line (Some "Abel 2001") (12 # 1) (18 # 1) (48 # 1));
   (1, block_line None (-30 # 1) (22 # 1) (4 # 1));
   (2, block_line None (6 # 1) (-8 # 1) (50 # 1));
   (3, block_line (Some "Baker 2004") (44 # 1) (-60 # 1) (10 # 1));
   (4, block_line None (-44 # 1) (-62 # 1) (12 # 1))].

(** * Vocabulary of the properties *)

(** The three null vectors a run of [main_effect] works with when cutoff
    prediction is off: those of the cache file if there is one, else the
    maxima of the simulated iterations. *)
Definition null_vectors (N : MainEffect.numerics) (project_path : string)
    (exp_df : ExperimentFrame) (meta_name : string) (tfce_enabled : bool)
    (bin_steps cluster_forming_threshold : Q) (monte_carlo_iterations : nat) (w : world)
    : list Q * list Q * list Q :=
  match fs w !! MainEffect.montecarlo_pickle project_path meta_name with
  | Some (PickledNulls vfwe_null cfwe_null tfce_null) => (vfwe_null, cfwe_null, tfce_null)
  | _ =>
      let outcomes := MainEffect.simulate N exp_df bin_steps cluster_forming_threshold
                        tfce_enabled None monte_carlo_iterations in
      (map (fun r => fst (fst r)) outcomes, map (fun r => snd (fst r)) outcomes,
       map snd outcomes)
  end.

(** A row of the table [concat_coordinates] returns has its foci counted
    when it holds a coordinate array and the number of its triplets. *)
Definition foci_counted (r : Input.ConcatRow) : Prop :=
  ∃ coordinates,
    Input.cc_Coordinates_mm r = Some coordinates
    ∧ Input.cc_NumberOfFoci r = Some (Z.of_nat (length coordinates)).

(** An index in increasing order, as [read_excel], [dropna] and
    [reset_index] leave it. *)
Definition increasing_index {R : Type} (df : Pd.DataFrame R) : Prop :=
  StronglySorted Z.lt (Pd.index df).

(** The characters of a path. *)
Definition chars (s : string) : list ascii := list_ascii_of_string s.

(** An action keeps a file when it leaves what the path holds as it was. *)
Definition keeps {A} (p : string) (m : M A) : Prop :=
  ∀ w, fs (snd (m w)) !! p = fs w !! p.

(** A table renumbered from [k] on. *)
Definition renumber_from {R : Type} (k : nat) (l : Pd.DataFrame R) : Pd.DataFrame R :=
  imap (fun i r => (Z.of_nat (k + i), snd r)) l.

(** * More vocabulary *)

(** An action retains a file when the file, if it is there before, is
    there after; it provides a file when every normal return leaves the
    file there. *)
Definition retains {A} (p : string) (m : M A) : Prop :=
  ∀ w, is_Some (fs w !! p) → is_Some (fs (snd (m w)) !! p).

Definition provides {A} (p : string) (m : M A) : Prop :=
  ∀ w, is_ok (fst (m w)) = true → is_Some (fs (snd (m w)) !! p).


(** * More of the code *)

(** ** [ale.py]: the main loop and the clustering dispatcher *)

(** The [clustering_parameters] mapping of the configuration. *)
Record ClusteringParams := {
  max_clusters : Z;
  subsample_fraction : Q;
  sampling_iterations : Z;
  null_iterations : Z
}.

(** What [run_ma_clustering] needs from outside [ale.py]: [clustering]
    of [core/analyses/clustering.py], and the rendering of a float with
    two decimals ([:.2f]) inside an f-string. *)
Record clustering_collaborators := {
  clustering : string -> ExperimentFrame -> string -> Z -> Q -> Z -> Z -> M unit;
  format_2f : Np.float -> string
}.

(** [exp_df.Subjects.mean()]: [nan] on an empty table. *)
Definition subjects_mean (exp_df : ExperimentFrame) : Np.float :=
  match exp_df with
  | [] => None
  | _ => Some (Np.mean (map (fun r => Subjects (snd r)) exp_df))
  end.

(** [run_ma_clustering] (lines 334-355). *)
Definition run_ma_clustering {Tasks Mask : Type} (C : @Ale.collaborators Tasks Mask)
    (K : clustering_collaborators) (analysis_df : Ale.AnalysisFrame) (row_idx : nat)
    (project_path : string) (params : ClusteringParams) (exp_all_df : ExperimentFrame)
    (tasks : Tasks) : M unit :=
  logger_info "Running MA Clustering" ;;
  cell ← lift (Ale.iloc analysis_df row_idx 1);
  let meta_name := Ale.fmt_cell cell in
  conditions ← lift (Ale.conditions_of analysis_df row_idx);
  compiled ← lift (Ale.compile_experiments C conditions tasks);
  let '(exp_idxs, masks, mask_names) := compiled in
  exp_df ← lift (Ale.select_experiments exp_all_df exp_idxs);
  logger_info (meta_name +:+ " : " +:+ pretty (length exp_idxs)
               +:+ " experiments; average of " +:+ format_2f K (subjects_mean exp_df)
               +:+ " subjects per experiment") ;;
  clustering K project_path exp_df meta_name (max_clusters params)
    (subsample_fraction params) (sampling_iterations params) (null_iterations params).

(** [s[0]] *)
Definition first_char (s : string) : result ascii :=
  match s with
  | String c _ => Ok c
  | EmptyString => Raise IndexError
  end.

(** Lines 374-397: what the main loop does with one row. *)
Definition dispatch_row {Tasks Mask : Type} (C : @Ale.collaborators Tasks Mask)
    (K : clustering_collaborators) (analysis_df : Ale.AnalysisFrame) (row_idx : nat)
    (project_path : string) (params : Ale.Params) (clustering_params : ClusteringParams)
    (exp_all_df : ExperimentFrame) (tasks : Tasks) : M unit :=
  cell ← lift (Ale.iloc analysis_df row_idx 0);
  match cell with
  | None => mret tt
  | Some code =>
      if String.eqb code "M" then
        Ale.run_main_effect C analysis_df row_idx project_path params exp_all_df tasks
      else
        c0 ← lift (first_char code);
        if Ascii.eqb c0 "P" then
          Ale.run_probabilistic_ale C analysis_df row_idx project_path params exp_all_df tasks
        else if String.eqb code "C" then
          Ale.run_contrast_analysis C analysis_df row_idx project_path params exp_all_df tasks
        else if Ascii.eqb c0 "B" then
          Ale.run_balanced_contrast C analysis_df row_idx project_path params exp_all_df tasks
        else if String.eqb code "Cluster" then
          run_ma_clustering C K analysis_df row_idx project_path clustering_params
            exp_all_df tasks
        else mret tt
  end.

(** [run_ale] from line 372 on, with the configuration and the tables
    already loaded: the loop over the rows of the analysis sheet, then
    the closing log line. *)
Definition run_ale_rows {Tasks Mask : Type} (C : @Ale.collaborators Tasks Mask)
    (K : clustering_collaborators) (analysis_df : Ale.AnalysisFrame)
    (project_path : string) (params : Ale.Params) (clustering_params : ClusteringParams)
    (exp_all_df : ExperimentFrame) (tasks : Tasks) : M unit :=
  for_each (seq 0 (length analysis_df))
    (fun row_idx =>
       dispatch_row C K analysis_df row_idx project_path params clustering_params
         exp_all_df tasks) ;;
  logger_info "Analysis completed.".

(** A type code that no branch of the loop takes up. *)
Definition passed_over (code : string) : Prop :=
  code ≠ "M" ∧ code ≠ "C" ∧ code ≠ "Cluster"
  ∧ ∃ c rest, code = String c rest ∧ c ≠ "P"%char ∧ c ≠ "B"%char.

Definition idle_clustering : clustering_collaborators :=
  {| clustering := fun _ _ _ _ _ _ _ => mret tt;
     format_2f := fun _ => "20.00" |}.

Definition some_clustering_params : ClusteringParams :=
  {| max_clusters := 10; subsample_fraction := 9 # 10;
     sampling_iterations := 500; null_iterations := 1000 |}.

(** ** [core/utils/input.py]: reading a sheet *)

(** A column label: the text of the header line, or the position when
    the sheet is read without header. *)
Inductive column_label :=
| Header (s : string)
| Position (n : nat).

(** A sheet as [pd.read_excel] returns it. *)
Record Sheet := {
  sheet_columns : list column_label;
  sheet_lines : Pd.DataFrame (list Input.cell)
}.

(** How a call of [pd.read_excel] ends: with the sheet, or with one of
    the exceptions [load_excel] tells apart, the last with its text. *)
Inductive read_outcome :=
| ReadOk (df : Sheet)
| ReadFileNotFoundError
| ReadValueError
| ReadException (text : string).

(** [df.notna().sum(axis=1)] on one line *)
Definition notna_count (cells : list Input.cell) : nat :=
  length (filter (fun c => Input.isnull c = false) cells).

(** [df.dropna(how="all")] *)
Definition dropna_all (lines : Pd.DataFrame (list Input.cell))
    : Pd.DataFrame (list Input.cell) :=
  filter (fun r => notna_count (snd r) ≠ 0%nat) lines.

Definition standard_names : list string :=
  ["Articles"; "Subjects"; "x"; "y"; "z"; "CoordinateSpace"].

(** Lines 80-89: the first six labels are overwritten in the array of
    labels; an array shorter than six cannot take the six names. *)
Definition rename_first_six (columns : list column_label) : result (list column_label) :=
  if (length columns <? 6)%nat
  then Raise (ValueError "could not broadcast input array from shape (6,)")
  else Ok (map Header standard_names ++ drop 6 columns)%list.

(** [load_excel] (lines 45-91); [read_excel] is [pd.read_excel], given
    the path and the header line, if any. *)
Definition load_excel (read_excel : string -> option nat -> read_outcome)
    (filepath : string) (type : string) : M Sheet :=
  let header := if String.eqb type "experiment" then Some 0%nat else None in
  match read_excel filepath header with
  | ReadFileNotFoundError =>
      print ("File '" +:+ filepath +:+ "' not found.") ;;
      raise SystemExit
  | ReadValueError =>
      print ("Error reading Excel file '" +:+ filepath
             +:+ "'. Make sure it's a valid Excel file.") ;;
      raise SystemExit
  | ReadException text =>
      print ("An error occurred: " +:+ text) ;;
      raise SystemExit
  | ReadOk df =>
      let lines := dropna_all (sheet_lines df) in
      if String.eqb type "experiment" then
        let mistake_rows :=
          filter (fun r => notna_count (snd r) = 1%nat ∨ notna_count (snd r) = 2%nat) lines in
        match mistake_rows with
        | _ :: _ =>
            let row_indices := map (fun r => fst r + 2) mistake_rows in
            print ("Error: Rows with only one or two entries found at indices: "
                   +:+ Input.fmt_array row_indices) ;;
            raise SystemExit
        | [] =>
            columns ← lift (rename_first_six (sheet_columns df));
            mret {| sheet_columns := columns; sheet_lines := lines |}
        end
      else mret {| sheet_columns := sheet_columns df; sheet_lines := lines |}
  end.

(** ** [core/utils/input.py]: the table of tasks *)

(** One row of the table [create_tasks_table] returns. *)
Record Task := {
  Name : string;
  Num_Exp : Z;
  Who : list string;
  TotalSubjects : Z;
  ExpIndex : list Z
}.

(** [np.hstack(exp_info["Tags"])]: there must be an array to stack. *)
Definition hstack_tags (exp_info : ExperimentFrame) : result (list string) :=
  match exp_info with
  | [] => Raise (ValueError "need at least one array to concatenate")
  | _ => Ok (concat (map (fun r => Tags (snd r)) exp_info))
  end.

(** [np.unique(tags, return_counts=True)]: the names in ascending order
    without repetition, and how often each occurs. *)
Definition unique_names (tags : list string) : list string :=
  foldr Input.insert_key [] tags.

Definition occurrences (name : string) (tags : list string) : Z :=
  Z.of_nat (length (filter (fun t => t = name) tags)).

Definition sum_subjects (rows : ExperimentFrame) : Z :=
  foldr (fun r acc => Subjects (snd r) + acc) 0 rows.

(** Lines 341-352: the row of one task. *)
Definition task_row (exp_info : ExperimentFrame) (tags : list string) (task : string)
    : result Task :=
  let task_exp_idxs := map fst (filter (fun r => task ∈ Tags (snd r)) exp_info) in
  selected ← Pd.loc exp_info task_exp_idxs;
  Ok {| Name := task;
        Num_Exp := occurrences task tags;
        Who := map (fun r => Articles (snd r)) selected;
        TotalSubjects := sum_subjects selected;
        ExpIndex := task_exp_idxs |}.

Fixpoint task_rows (exp_info : ExperimentFrame) (tags : list string) (task_names : list string)
    : result (list Task) :=
  match task_names with
  | [] => Ok []
  | task :: rest =>
      row ← task_row exp_info tags task;
      rows ← task_rows exp_info tags rest;
      Ok (row :: rows)
  end.

(** Lines 354-361: the row that sums up all experiments. *)
Definition all_row (exp_info : ExperimentFrame) : Task :=
  {| Name := "all";
     Num_Exp := Pd.len exp_info;
     Who := map (fun r => Articles (snd r)) exp_info;
     TotalSubjects := sum_subjects exp_info;
     ExpIndex := map Z.of_nat (seq 0 (length exp_info)) |}.

(** [sort_values(by="Num_Exp", ascending=False)].  pandas leaves the
    order among rows with equal counts open; here they keep the order
    they had. *)
Fixpoint insert_task (t : Task) (l : list Task) : list Task :=
  match l with
  | [] => [t]
  | u :: rest =>
      if Num_Exp u <=? Num_Exp t then t :: l else u :: insert_task t rest
  end.

Definition sort_by_num_exp (l : list Task) : list Task := foldr insert_task [] l.

(** [create_tasks_table] (lines 327-366); the rows of the result are
    numbered from zero. *)
Definition create_tasks_table (exp_info : ExperimentFrame) : result (list Task) :=
  tags ← hstack_tags exp_info;
  let task_names := unique_names tags in
  rows ← task_rows exp_info tags task_names;
  Ok (sort_by_num_exp (rows ++ [all_row exp_info])).

(** Example: a sheet read with header, with one line of two entries. *)
Definition short_line_sheet : Sheet :=
  {| sheet_columns := map Header ["Author"; "N"; "X"; "Y"; "Z"; "Space"; "Tag"];
     sheet_lines :=
       [(0, [Input.Str "Abel 2001"; Input.Int 20; Input.Float (12 # 1); Input.Float (18 # 1);
             Input.Float (48 # 1); Input.Str "MNI"; Input.Str "visual"]);
        (1, [Input.NaN; Input.NaN; Input.NaN; Input.NaN; Input.NaN; Input.NaN; Input.NaN]);
        (2, [Input.Str "Baker 2004"; Input.Int 15; Input.NaN; Input.NaN; Input.NaN;
             Input.NaN; Input.NaN])] |}.

Definition good_sheet : Sheet :=
  {| sheet_columns := map Header ["Author"; "N"; "X"; "Y"; "Z"; "Space"; "Tag"];
     sheet_lines :=
       [(0, [Input.Str "Abel 2001"; Input.Int 20; Input.Float (12 # 1); Input.Float (18 # 1);
             Input.Float (48 # 1); Input.Str "MNI"; Input.Str "visual"]);
        (1, [Input.NaN; Input.NaN; Input.NaN; Input.NaN; Input.NaN; Input.NaN; Input.NaN]);
        (2, [Input.NaN; Input.NaN; Input.Float (-30 # 1); Input.Float (22 # 1);
             Input.Float (4 # 1); Input.NaN; Input.NaN])] |}.

(** Example: three experiments with tags. *)
Definition tagged_experiment (name : string) (subjects : Z) (tags : list string) : Experiment :=
  {| Articles := name; Subjects := subjects; CoordinateSpace := "MNI"; Tags := tags;
     NumberOfFoci := 1; Coordinates := [(39, 72, 60)] |}.

Definition three_tagged : ExperimentFrame :=
  [(0, tagged_experiment "Abel 2001" 20 ["visual"; "faces"]);
   (1, tagged_experiment "Baker 2004" 15 ["motor"]);
   (2, tagged_experiment "Chen 2010" 30 ["visual"])].

Definition good_sheet_loaded : Sheet :=
  {| sheet_columns := map Header ["Articles"; "Subjects"; "x"; "y"; "z"; "CoordinateSpace"; "Tag"];
     sheet_lines :=
       [(0, [Input.Str "Abel 2001"; Input.Int 20; Input.Float (12 # 1); Input.Float (18 # 1);
             Input.Float (48 # 1); Input.Str "MNI"; Input.Str "visual"]);
        (2, [Input.NaN; Input.NaN; Input.Float (-30 # 1); Input.Float (22 # 1);
             Input.Float (4 # 1); Input.NaN; Input.NaN])] |}.

(** * Properties *)

(** ** Sanity checks of the embedding *)

Example int_plain : Py.int "25" = Ok 25.
Proof. reflexivity. Qed.

Example int_signed_spaced : Py.int " -1_0 " = Ok (-10).
Proof. reflexivity. Qed.

Example int_empty : is_ok (Py.int "") = false.
Proof. reflexivity. Qed.

Example int_letters : is_ok (Py.int "abc") = false.
Proof. reflexivity. Qed.

Example int_double_underscore : is_ok (Py.int "1__0") = false.
Proof. reflexivity. Qed.

Example fmt_int_25 : fmt_int 25 = "25".
Proof. reflexivity. Qed.

Example fmt_int_negative : fmt_int (-2) = "-2".
Proof. reflexivity. Qed.

Example fmt_none : fmt_opt_int None = "None".
Proof. reflexivity. Qed.

Example join_relative : path_join "/proj" "Results/MainEffect" = "/proj/Results/MainEffect".
Proof. reflexivity. Qed.

Example join_absolute : path_join "/proj" "/Full/Volumes/a.nii" = "/Full/Volumes/a.nii".
Proof. reflexivity. Qed.

Example percentile_21 :
  Np.percentile (map inject_Z [21; 3; 5; 1; 2; 4; 6; 7; 8; 9; 10; 11; 12; 13; 14; 15; 16; 17; 18; 19; 20]) 95
  = Some (inject_Z 20).
Proof. reflexivity. Qed.

Example percentile_interpolates : Np.percentile [1; 2; 3; 4]%Q 95 = Some (77 # 20).
Proof. reflexivity. Qed.

Example percentile_empty : Np.percentile [] 95 = None.
Proof. reflexivity. Qed.

Example reset_index_relabels :
  Pd.reset_index [(4, "a"); (7, "b")] = [(0, "a"); (1, "b")].
Proof. reflexivity. Qed.

Example loc_keeps_labels :
  Pd.loc [(0, "a"); (1, "b"); (2, "c")] [2; 0] = Ok [(2, "c"); (0, "a")].
Proof. reflexivity. Qed.

Example drop_removes_rows :
  Pd.drop [(0, "a"); (1, "b"); (2, "c")] {[ 0; 2 ]} = Ok [(1, "b")].
Proof. vm_compute. reflexivity. Qed.

Example exists_after_write :
  fst ((write_file "/p/a.nii" Blob ;; path_exists "/p/a.nii") empty_world) = Ok true.
Proof. vm_compute. reflexivity. Qed.

Example bind_ok :
  Call.bind_arguments "f" [("a", false); ("b", true)] {| Call.positional := 1; Call.keywords := ["b"] |} = Ok tt.
Proof. vm_compute. reflexivity. Qed.

Example bind_missing :
  is_ok (Call.bind_arguments "f" [("a", false); ("b", true)] {| Call.positional := 0; Call.keywords := ["b"] |}) = false.
Proof. vm_compute. reflexivity. Qed.

Example bind_twice :
  is_ok (Call.bind_arguments "f" [("a", false); ("b", true)] {| Call.positional := 1; Call.keywords := ["a"] |}) = false.
Proof. vm_compute. reflexivity. Qed.

Example fmt_array_padded : Input.fmt_array [3; 13] = "[ 3 13]".
Proof. reflexivity. Qed.

Example fmt_array_one : Input.fmt_array [13] = "[13]".
Proof. reflexivity. Qed.

Example fmt_array_none : Input.fmt_array [] = "[]".
Proof. reflexivity. Qed.

(** ** Target size of a balanced contrast *)

Lemma mean_with_17 (m : Z) : Np.floor (Np.mean [m; 17]) = (m + 17) / 2.
Proof.
  unfold Np.floor, Np.mean, Qdiv, Qfloor, Qmult, Qinv, inject_Z. simpl.
  f_equal. lia.
Qed.

(** C10: for a type code of one character, [determine_target_n] returns
    min(floor((m + 17) / 2), m - 2) with m the size of the smaller of the
    two pools; that value is at most m - 2, hence below m. *)
Theorem determine_target_n_default (c : ascii) (df1 df2 : ExperimentFrame)
    (more : list ExperimentFrame) :
  Ale.determine_target_n (String c "") (df1 :: df2 :: more)
  = Ok (Z.min ((Z.min (Pd.len df1) (Pd.len df2) + 17) / 2)
              (Z.min (Pd.len df1) (Pd.len df2) - 2))
  ∧ Z.min ((Z.min (Pd.len df1) (Pd.len df2) + 17) / 2)
          (Z.min (Pd.len df1) (Pd.len df2) - 2)
    ≤ Z.min (Pd.len df1) (Pd.len df2) - 2
  ∧ Z.min ((Z.min (Pd.len df1) (Pd.len df2) + 17) / 2)
          (Z.min (Pd.len df1) (Pd.len df2) - 2)
    < Z.min (Pd.len df1) (Pd.len df2).
Proof.
  split; [| lia].
  unfold Ale.determine_target_n. cbn [Py.len String.length].
  change (1 <? Z.of_nat 1)%Z with false. cbv iota.
  cbn [Np.min_int fold_left mbind result_bind rbind].
  by rewrite mean_with_17.
Qed.

Example determine_target_n_explicit :
  Ale.determine_target_n "B12" [[]; []] = Ok 12.
Proof. reflexivity. Qed.

(** ** A probabilistic row without subsampling size *)

(** Unfolding of the two monads. *)
Ltac run_monad :=
  unfold mbind, mret, M_bind, M_ret, result_bind, result_ret,
    World.bind, World.ret, World.lift, World.raise, World.path_exists,
    World.logger_info, World.logger_warning, World.logger, World.print,
    World.write_file, World.read_file, rbind in *.

(** C5 fails as stated: a row with type code "P" makes
    [run_probabilistic_ale] return normally; no exception ends the
    process. *)
Lemma missing_target_n_not_fatal :
  ¬ (∃ e, fst (Ale.run_probabilistic_ale idle [[Some "P"; Some "Pain"; Some "+all"]] 0
                 "/proj" some_params [] tt empty_world) = Raise e).
Proof. intros [e H]. vm_compute in H. discriminate H. Qed.

(** A suffix that is no integer literal is another matter: [int] raises,
    and nothing catches the exception. *)
Example unreadable_target_n_raises :
  fst (Ale.run_probabilistic_ale idle [[Some "Pabc"; Some "Pain"; Some "+all"]] 0
         "/proj" some_params [] tt empty_world)
  = Raise (ValueError "invalid literal for int() with base 10: abc").
Proof. by vm_compute. Qed.

(** C5, amended: when the type code of a probabilistic row is a single
    character and no result file exists for the row, then, the
    experiments of the row being resolved, [run_probabilistic_ale] logs
    the warning that the subsampling size is needed, leaves the files
    alone, does not call [probabilistic_ale] and returns normally. *)
Theorem missing_target_n_is_a_warning {Tasks Mask : Type}
    (C : @Ale.collaborators Tasks Mask) (analysis_df : Ale.AnalysisFrame) (row_idx : nat)
    (project_path : string) (params : Ale.Params) (exp_all_df : ExperimentFrame)
    (tasks : Tasks) (w : world) (c : ascii) (name : option string)
    (conditions : list (option string)) (compiled : list Z * list Mask * list string)
    (exp_df : ExperimentFrame) :
  analysis_df !! row_idx = Some (Some (String c "") :: name :: conditions) →
  Ale.compile_experiments C (omap id conditions) tasks = Ok compiled →
  Ale.select_experiments exp_all_df (fst (fst compiled)) = Ok exp_df →
  fs w !! path_join project_path
            ("Results/Probabilistic/Volumes/" +:+ Ale.fmt_cell name +:+ "_sub_ale_None.nii")
    = None →
  Ale.run_probabilistic_ale C analysis_df row_idx project_path params exp_all_df tasks w
  = (Ok tt,
     World (fs w)
           (log w ++ [(INFO, "Running Probabilistic ALE");
                      (WARNING, Ale.fmt_cell name +:+ ": Need to specify subsampling N")])
           (stdout w)).
Proof.
  intros Hrow Hcompile Hselect Hfile.
  change (fs w !! path_join project_path
            ("Results/Probabilistic/Volumes/" +:+ Ale.fmt_cell name +:+ "_sub_ale_"
             +:+ fmt_opt_int None +:+ ".nii") = None) in Hfile.
  unfold Ale.run_probabilistic_ale, Ale.iloc, Ale.conditions_of.
  rewrite Hrow. run_monad. cbn [lookup list_lookup Ale.as_str].
  change (1 <? len (String c "")) with false. cbv iota.
  rewrite Hfile.
  rewrite bool_decide_eq_false_2 by (intros [? ?]; discriminate).
  change (drop 2 (Some (String c "") :: name :: conditions)) with conditions.
  rewrite Hcompile. destruct compiled as [[exp_idxs masks] mask_names].
  cbn [fst] in Hselect. rewrite Hselect.
  cbn [fs log stdout]. by rewrite <- app_assoc.
Qed.

Lemma missing_target_n_is_a_warning_witness :
  Ale.run_probabilistic_ale idle [[Some "P"; Some "Pain"; Some "+all"]] 0
    "/proj" some_params [] tt empty_world
  = (Ok tt,
     World ∅ [(INFO, "Running Probabilistic ALE");
              (WARNING, "Pain: Need to specify subsampling N")] []).
Proof.
  exact (missing_target_n_is_a_warning idle [[Some "P"; Some "Pain"; Some "+all"]] 0
           "/proj" some_params [] tt empty_world "P"%char (Some "Pain") [Some "+all"]
           ([], [], []) [] eq_refl eq_refl eq_refl eq_refl).
Defined.

(** [map] of the standard library is [fmap] on lists. *)
Lemma map_fmap {A B} (f : A → B) (l : list A) : map f l = f <$> l.
Proof. done. Qed.

(** ** Paths that differ *)

Lemma chars_app (a b : string) : chars (a +:+ b) = (chars a ++ chars b)%list.
Proof.
  induction a as [| c a IH]; [done |].
  change (String c a +:+ b) with (String c (a +:+ b)).
  unfold chars in *. cbn [list_ascii_of_string app]. by rewrite IH.
Qed.

(** Two texts with different endings, or with different continuations of
    a common beginning, are different paths. *)
Ltac by_ending H :=
  apply (f_equal chars) in H; rewrite ?chars_app in H;
  apply (f_equal (@rev ascii)) in H; rewrite ?rev_app_distr in H;
  simpl in H; discriminate H.

Ltac by_beginning H :=
  apply (f_equal chars) in H; rewrite ?chars_app in H;
  repeat apply app_inv_head in H;
  simpl in H; discriminate H.

(** Decide each [path_join]: a right operand that begins with a literal
    character is relative or absolute by that character; otherwise both
    cases are considered. *)
Ltac decide_joins :=
  unfold path_join in *;
  repeat match goal with
    | |- context [is_absolute ?q] =>
        first [ change (is_absolute q) with false
              | change (is_absolute q) with true
              | destruct (is_absolute q) ];
        cbv iota
    end.

Lemma cv_pickle_paths_differ (project_path meta_name : string)
    (target_n : option Z) :
  MainEffect.cv_pickle_checked project_path meta_name target_n
  ≠ MainEffect.cv_pickle_written project_path meta_name target_n.
Proof.
  unfold MainEffect.cv_pickle_checked, MainEffect.cv_pickle_written.
  decide_joins. intros H. by_beginning H.
Qed.

(** ** Actions that leave a file alone *)

Lemma keeps_ret {A} p (a : A) : keeps p (mret a).
Proof. by intros w. Qed.

Lemma keeps_bind {A B} p (m : M A) (k : A → M B) :
  keeps p m → (∀ a, keeps p (k a)) → keeps p (m ≫= k).
Proof.
  intros Hm Hk w. run_monad. specialize (Hm w).
  destruct (m w) as [[a | e] w']; cbn in *; [| done].
  by rewrite Hk.
Qed.

Lemma keeps_lift {A} p (r : result A) : keeps p (lift r).
Proof. by intros w. Qed.

Lemma keeps_raise {A} p e : keeps p (raise (A:=A) e).
Proof. by intros w. Qed.

Lemma keeps_path_exists p q : keeps p (path_exists q).
Proof. by intros w. Qed.

Lemma keeps_logger p l msg : keeps p (logger l msg).
Proof. by intros w. Qed.

Lemma keeps_logger_info p msg : keeps p (logger_info msg).
Proof. by intros w. Qed.

Lemma keeps_read_file p q : keeps p (read_file q).
Proof. intros w. unfold read_file. by destruct (fs w !! q). Qed.

Lemma keeps_write_file p q f : q ≠ p → keeps p (write_file q f).
Proof. intros Hne w. cbn. by rewrite lookup_insert_ne. Qed.

Lemma keeps_if {A} p (b : bool) (m1 m2 : M A) :
  keeps p m1 → keeps p m2 → keeps p (if b then m1 else m2).
Proof. by destruct b. Qed.

Lemma keeps_for_each {A} p (l : list A) (body : A → M unit) :
  (∀ a, keeps p (body a)) → keeps p (for_each l body).
Proof.
  intros Hbody. induction l as [| a l IH]; cbn [for_each].
  - apply (keeps_ret p tt).
  - apply (keeps_bind p (body a)); auto.
Qed.

Create HintDb keeps.
#[export] Hint Resolve keeps_ret keeps_lift keeps_raise keeps_path_exists keeps_logger
  keeps_logger_info keeps_read_file : keeps.

Ltac keeps_step :=
  first
    [ apply keeps_bind; [| intros ? ]
    | apply keeps_if
    | apply keeps_write_file
    | solve [ auto with keeps ] ].

(** ** What [main_effect] writes *)

(** No file [main_effect] writes has a name that ends like the name
    [run_main_effect] looks for, whatever the project and the
    meta-analysis. *)

Ltac other_path :=
  unfold MainEffect.resolve, Ale.main_effect_result_path, MainEffect.montecarlo_pickle,
    MainEffect.cv_pickle_checked, MainEffect.cv_pickle_written in *;
  decide_joins;
  let H := fresh in intros H; first [ by_ending H | by_beginning H ].

Ltac keeps_all :=
  repeat first
    [ keeps_step
    | match goal with
      | |- keeps _ (let '(_, _) := ?t in _) => destruct t
      | |- keeps _ (match ?t with _ => _ end) => destruct t
      end
    | other_path ].

Lemma main_effect_keeps_result_path (N : MainEffect.numerics) (project_path : string)
    (exp_df : ExperimentFrame) (meta_name : string) (tfce_enabled cutoff_predict_enabled : bool)
    (bin_steps cluster_forming_threshold : Q) (monte_carlo_iterations : nat) (nprocesses : Z)
    (any_path any_name : string) :
  keeps (Ale.main_effect_result_path any_path any_name)
        (MainEffect.main_effect N project_path exp_df meta_name tfce_enabled
           cutoff_predict_enabled bin_steps cluster_forming_threshold
           monte_carlo_iterations nprocesses).
Proof.
  unfold MainEffect.main_effect, MainEffect.foci_illustration, MainEffect.ale_calculation,
    MainEffect.z_and_tfce, MainEffect.monte_carlo_thresholds, MainEffect.thresholding,
    MainEffect.np_save, MainEffect.np_savez_compressed, MainEffect.to_csv,
    MainEffect.plot_and_save, MainEffect.nb_load, MainEffect.pickle_load,
    MainEffect.pickle_dump.
  keeps_all.
Qed.

(** C7: a second [run_main_effect] for the same name does not find the
    file it looks for, although the first run completed and saved its
    volumes: [main_effect] saves [Full/Volumes/<name>_cFWE05.nii], the
    dispatcher looks for [Volumes/<name>_cFWE.nii].  The second run logs
    no "already exist" and computes again. *)
Theorem rerun_main_effect_computes_again :
  let run := Ale.run_main_effect idle [[Some "M"; Some "Pain"; Some "+all"]] 0
               "/proj" some_params [] tt in
  let w1 := snd (run empty_world) in
  fst (run empty_world) = Ok tt
  ∧ fs w1 !! "/proj/Results/MainEffect/Full/Volumes/Pain_cFWE05.nii" = Some Blob
  ∧ Ale.main_effect_result_path "/proj" "Pain" = "/proj/Results/MainEffect/Volumes/Pain_cFWE.nii"
  ∧ fs w1 !! Ale.main_effect_result_path "/proj" "Pain" = None
  ∧ fst (run w1) = Ok tt
  ∧ log (snd (run w1))
    = (log w1 ++ [(INFO, "Running Main-Effect Analysis");
                  (INFO, "Pain - illustrate Foci");
                  (INFO, "Pain - computing ALE and null PDF");
                  (INFO, "Pain - loading z-values & TFCE");
                  (INFO, "Pain - loading null");
                  (INFO, "Pain - inference and printing")])%list.
Proof. repeat split; by vm_compute. Qed.

(** ** The cache of the subsampled null *)

Lemma probabilistic_ale_keeps_checked_pickle (N : MainEffect.numerics) (project_path : string)
    (exp_df : ExperimentFrame) (meta_name : string) (tfce_enabled cutoff_predict_enabled : bool)
    (bin_steps cluster_forming_threshold : Q) (monte_carlo_iterations : nat)
    (target_n : option Z) (sample_n nprocesses : Z) :
  keeps (MainEffect.cv_pickle_checked
           (path_join project_path "Results/MainEffect/CV") meta_name target_n)
        (MainEffect.probabilistic_ale N project_path exp_df meta_name tfce_enabled
           cutoff_predict_enabled bin_steps cluster_forming_threshold monte_carlo_iterations
           target_n sample_n nprocesses).
Proof.
  unfold MainEffect.probabilistic_ale, MainEffect.cv_cluster_cutoff, MainEffect.cv_ale,
    MainEffect.np_save, MainEffect.np_savez_compressed, MainEffect.to_csv,
    MainEffect.plot_and_save, MainEffect.nb_load, MainEffect.pickle_load,
    MainEffect.pickle_dump.
  keeps_all.
Qed.

(** C2: [probabilistic_ale] writes the simulated null to
    [NullDistributions/...] under its results folder but looks for it,
    and would read it, under [CV/NullDistributions/...]: after a complete
    first run the file looked for is absent, and a second run with the
    same name and target size simulates again. *)
Theorem probabilistic_ale_simulates_again :
  let run := MainEffect.probabilistic_ale idle_numerics "/proj" [] "Pain" true true
               (1 # 10000) (1 # 1000) 3 (Some 2) 2500 2 in
  let w1 := snd (run empty_world) in
  fst (run empty_world) = Ok tt
  ∧ MainEffect.cv_pickle_written "/proj/Results/MainEffect/CV" "Pain" (Some 2)
    = "/proj/Results/MainEffect/CV/NullDistributions/Pain_montecarlo_2.pickle"
  ∧ MainEffect.cv_pickle_checked "/proj/Results/MainEffect/CV" "Pain" (Some 2)
    = "/proj/Results/MainEffect/CV/CV/NullDistributions/Pain_montecarlo_2.pickle"
  ∧ fs w1 !! "/proj/Results/MainEffect/CV/NullDistributions/Pain_montecarlo_2.pickle"
    = Some (PickledVector [inject_Z 10; inject_Z 11; inject_Z 12])
  ∧ fs w1 !! "/proj/Results/MainEffect/CV/CV/NullDistributions/Pain_montecarlo_2.pickle" = None
  ∧ fst (run w1) = Ok tt
  ∧ log (snd (run w1))
    = (log w1 ++ [(INFO, "Pain - entering probabilistic ALE routine.");
                  (INFO, "Pain - computing cv cluster cut-off.");
                  (INFO, "Pain - loading cv ale")])%list.
Proof. repeat split; by vm_compute. Qed.

(** For comparison, [main_effect] looks for, reads and writes one and
    the same file, and finds it on the second run. *)
Example main_effect_null_is_found_again :
  let run := MainEffect.main_effect idle_numerics "/proj" [] "Pain" true false
               (1 # 10000) (1 # 1000) 3 2 in
  let w1 := snd (run empty_world) in
  fs w1 !! MainEffect.montecarlo_pickle "/proj/Results/MainEffect" "Pain"
  = Some (PickledNulls [inject_Z 0; inject_Z 1; inject_Z 2]
                       [inject_Z 10; inject_Z 11; inject_Z 12]
                       [inject_Z 100; inject_Z 101; inject_Z 102])
  ∧ (INFO, "Pain - loading null") ∈ log (snd (run w1)).
Proof. split; [by vm_compute |]. vm_compute. repeat constructor. Qed.

(** ** Prerequisites of the contrasts *)

Lemma full_call_accepted :
  Call.bind_arguments "main_effect" MainEffect.main_effect_parameters Ale.full_call = Ok tt.
Proof. by vm_compute. Qed.

Lemma subsampling_call_rejected :
  Call.bind_arguments "main_effect" MainEffect.main_effect_parameters Ale.subsampling_call
  = Raise (TypeError "main_effect() got an unexpected keyword argument 'target_n'").
Proof. by vm_compute. Qed.

(** Whatever the arguments, the call [run_balanced_contrast] makes never
    reaches the body of [main_effect]. *)
Lemma subsampling_call_raises (body : M unit) (w : world) :
  Call.invoke "main_effect" MainEffect.main_effect_parameters Ale.subsampling_call body w
  = (Raise (TypeError "main_effect() got an unexpected keyword argument 'target_n'"), w).
Proof. unfold Call.invoke. run_monad. by rewrite subsampling_call_rejected. Qed.

(** C3: a balanced contrast whose subsampled maps do not exist yet calls
    [main_effect] with the keywords [target_n] and [sample_n], which
    [main_effect] does not have; the call raises [TypeError] and the
    dispatcher ends with that exception instead of running the
    prerequisite. *)
Theorem balanced_contrast_prerequisite_raises :
  Ale.sub_ale_result_path "/proj" "Visual" 1 = "/proj/Results/MainEffect/Volumes/Visual_sub_ale_1.nii"
  ∧ fs empty_world !! Ale.sub_ale_result_path "/proj" "Visual" 1 = None
  ∧ Ale.run_balanced_contrast tagged balanced_rows 0 "/proj" some_params four_experiments tt
      empty_world
    = (Raise (TypeError "main_effect() got an unexpected keyword argument 'target_n'"),
       World ∅ [(INFO, "Running subsampling ale for Visual as prerequisite for balanced contrast analysis")]
             []).
Proof. repeat split; by vm_compute. Qed.

(** The prerequisite of a plain contrast, by contrast, is run. *)
Example contrast_prerequisite_runs :
  let w1 := snd (Ale.run_contrast_analysis tagged contrast_rows 0 "/proj" some_params
                   four_experiments tt empty_world) in
  fst (Ale.run_contrast_analysis tagged contrast_rows 0 "/proj" some_params
         four_experiments tt empty_world) = Ok tt
  ∧ fs w1 !! "/proj/Results/MainEffect/Full/Volumes/Visual_cFWE05.nii" = Some Blob
  ∧ fs w1 !! "/proj/Results/MainEffect/Full/Volumes/Motor_cFWE05.nii" = Some Blob.
Proof. repeat split; by vm_compute. Qed.

(** ** Overlap of the two pools of a contrast *)

(** C1: the pools are renumbered from zero by [setup_contrast_data], so
    the index sets that line 198 intersects hold positions, not
    experiments.  The pools built here are Abel, Baker, Chen and Chen,
    Diaz; after the removal the shared experiment Chen is still in the
    first pool, while the unshared Abel, Baker and Diaz are gone. *)
Theorem overlap_removal_keeps_shared_experiment :
  Ale.setup_contrast_data tagged contrast_rows 0 four_experiments tt
  = Ok (["Visual"; "Motor"],
        [[(0, experiment "Abel 2001"); (1, experiment "Baker 2004"); (2, experiment "Chen 2010")];
         [(0, experiment "Chen 2010"); (1, experiment "Diaz 2015")]])
  ∧ Ale.remove_overlap
      [[(0, experiment "Abel 2001"); (1, experiment "Baker 2004"); (2, experiment "Chen 2010")];
       [(0, experiment "Chen 2010"); (1, experiment "Diaz 2015")]]
    = Ok [[(2, experiment "Chen 2010")]; []].
Proof. split; by vm_compute. Qed.

(** In general: after [setup_contrast_data] has renumbered the pools,
    the overlap of the index sets is the range of positions below the
    size of the smaller pool, and removing it cuts that many rows off
    the front of each pool, whichever experiments they hold. *)
Section Overlap.
Context {R : Type}.
Implicit Types (l : Pd.DataFrame R).

Lemma reset_index_renumber l : Pd.reset_index l = renumber_from 0 l.
Proof. done. Qed.

Lemma renumber_from_cons k (r : Z * R) l :
  renumber_from k (r :: l) = (Z.of_nat k, snd r) :: renumber_from (S k) l.
Proof.
  unfold renumber_from. rewrite imap_cons. f_equal.
  - by rewrite Nat.add_0_r.
  - apply imap_ext. intros i x _. cbn. do 2 f_equal. lia.
Qed.

Lemma index_renumber_from k l (z : Z) :
  z ∈ Pd.index (renumber_from k l) ↔ (Z.of_nat k ≤ z < Z.of_nat (k + length l)).
Proof.
  revert k. induction l as [| r l IH]; intros k.
  - cbn. rewrite elem_of_nil. lia.
  - rewrite renumber_from_cons. unfold Pd.index in *. cbn [map fst length].
    rewrite elem_of_cons, IH. lia.
Qed.

Lemma index_set_reset_index l (z : Z) :
  z ∈ Pd.index_set (Pd.reset_index l) ↔ (0 ≤ z < Z.of_nat (length l)).
Proof.
  unfold Pd.index_set. rewrite elem_of_list_to_set, reset_index_renumber,
    index_renumber_from. cbn. lia.
Qed.

Lemma filter_renumber_from (labels : gset Z) (m k : nat) l :
  (∀ z : Z, z ∈ labels ↔ 0 ≤ z < Z.of_nat m) →
  filter (fun r => fst r ∉ labels) (renumber_from k l) = drop (m - k) (renumber_from k l).
Proof.
  intros HS. revert k. induction l as [| r l IH]; intros k.
  - unfold renumber_from. cbn. by rewrite drop_nil.
  - rewrite renumber_from_cons. destruct (decide (k < m)%nat) as [Hlt | Hge].
    + rewrite filter_cons_False by (cbn; rewrite HS; lia).
      rewrite IH. replace (m - k)%nat with (S (m - S k)) by lia. done.
    + rewrite filter_cons_True by (cbn; rewrite HS; lia).
      rewrite IH.
      replace (m - k)%nat with 0%nat by lia.
      replace (m - S k)%nat with 0%nat by lia. done.
Qed.
End Overlap.

Lemma remove_overlap_by_position (a b : ExperimentFrame) (more : list ExperimentFrame) :
  Ale.remove_overlap (Pd.reset_index a :: Pd.reset_index b :: more)
  = Ok [drop (length a `min` length b) (Pd.reset_index a);
        drop (length a `min` length b) (Pd.reset_index b)].
Proof.
  set (m := (length a `min` length b)%nat).
  assert (Hcap : ∀ z : Z,
             z ∈ Pd.index_set (Pd.reset_index a) ∩ Pd.index_set (Pd.reset_index b)
             ↔ 0 ≤ z < Z.of_nat m).
  { intros z'. rewrite elem_of_intersection, !index_set_reset_index. lia. }
  unfold Ale.remove_overlap, Pd.drop.
  rewrite !decide_True.
  - cbn [mbind result_bind rbind].
    rewrite !reset_index_renumber in *.
    rewrite !(filter_renumber_from _ m 0) by done.
    by rewrite Nat.sub_0_r.
  - intros z' Hz. apply Hcap in Hz. apply index_set_reset_index. lia.
  - intros z' Hz. apply Hcap in Hz. apply index_set_reset_index. lia.
Qed.

(** Hence the smaller pool always comes out empty. *)
Lemma remove_overlap_empties_smaller (a b : ExperimentFrame) :
  (length a ≤ length b)%nat →
  ∃ rest, Ale.remove_overlap [Pd.reset_index a; Pd.reset_index b] = Ok [[]; rest].
Proof.
  intros Hle. rewrite remove_overlap_by_position.
  rewrite Nat.min_l by done. eexists. do 2 f_equal.
  apply drop_ge. unfold Pd.reset_index. by rewrite length_imap.
Qed.

(** ** Coordinates that are numbers *)

(** A sheet whose coordinate columns are all float columns passes. *)
Lemma float_columns_pass (parse : string → option Q) (df : Input.RawFrame) (w : world) :
  Input.dtype_x df = Input.float64 →
  Input.dtype_y df = Input.float64 →
  Input.dtype_z df = Input.float64 →
  Input.check_coordinates_are_numbers parse df w
  = (Ok {| Input.rows := Pd.reset_index (Input.rows df);
           Input.dtype_x := Input.float64;
           Input.dtype_y := Input.float64;
           Input.dtype_z := Input.float64 |}, w).
Proof.
  intros Hx Hy Hz.
  unfold Input.check_coordinates_are_numbers, Input.check_column, Input.coord_dtype.
  rewrite Hx, Hy, Hz. by run_monad.
Qed.

(** The process ends exactly when some coordinate column is not a float
    column. *)
Lemma exits_iff_not_float (parse : string → option Q) (df : Input.RawFrame) (w : world) :
  fst (Input.check_coordinates_are_numbers parse df w) = Raise SystemExit
  ↔ ¬ (Input.dtype_x df = Input.float64 ∧ Input.dtype_y df = Input.float64
       ∧ Input.dtype_z df = Input.float64).
Proof.
  unfold Input.check_coordinates_are_numbers, Input.check_column, Input.coord_dtype.
  destruct (Input.dtype_x df), (Input.dtype_y df), (Input.dtype_z df);
    run_monad; cbn; split; intros H; try done; try (by intros (? & ? & ?));
    by destruct H.
Qed.

(** A text in a coordinate column ends the process. *)
Lemma text_coordinate_exits (parse : string → option Q) (df : Input.RawFrame) (w : world)
    (c : Input.coord) (r : Z * Input.RawRow) (s : string) :
  Input.well_typed df → r ∈ Input.rows df → Input.coord_cell c (snd r) = Input.Str s →
  fst (Input.check_coordinates_are_numbers parse df w) = Raise SystemExit.
Proof.
  intros Hwt Hr Hs. apply exits_iff_not_float. intros (Hx & Hy & Hz).
  specialize (Hwt c r Hr). rewrite Hs in Hwt.
  destruct c; cbn in Hwt; rewrite ?Hx, ?Hy, ?Hz in Hwt; discriminate.
Qed.

(** C8: a sheet whose coordinates are all numbers, but held in integer
    columns, ends the process all the same; the rows reported are none. *)
Theorem integer_coordinates_exit (parse : string → option Q) :
  Input.well_typed integer_sheet
  ∧ (∀ c r, r ∈ Input.rows integer_sheet → Input.is_number (Input.coord_cell c (snd r)) = true)
  ∧ Input.check_coordinates_are_numbers parse integer_sheet empty_world
    = (Raise SystemExit,
       World ∅ [] ["Non-numeric Coordinates in column x: []";
                   "Non-numeric Coordinates in column y: []";
                   "Non-numeric Coordinates in column z: []"]).
Proof.
  split; [| split].
  - intros c r Hr. cbn in Hr. set_unfold.
    destruct Hr as [-> | [-> | [-> | []]]]; by destruct c.
  - intros c r Hr. cbn in Hr. set_unfold.
    destruct Hr as [-> | [-> | [-> | []]]]; by destruct c.
  - by vm_compute.
Qed.

(** ** Voxel coordinates *)

(** The transform never prints and never logs: the world is as before. *)
Lemma transform_is_silent (inv_affine : Input.matrix4) (exp_info : Pd.DataFrame Input.MmRow)
    (w : world) :
  snd (Input.transform_coordinates_to_voxel_space inv_affine exp_info w) = w.
Proof. done. Qed.

(** What it does guarantee is the upper bound. *)
Lemma transform_upper_bounds (inv_affine : Input.matrix4) (exp_info : Pd.DataFrame Input.MmRow)
    (w : world) (out : Pd.DataFrame Input.VoxelRow) (r : Z * Input.VoxelRow) (v : Z * Z * Z) :
  fst (Input.transform_coordinates_to_voxel_space inv_affine exp_info w) = Ok out →
  r ∈ out → v ∈ Input.vx_Coordinates (snd r) →
  fst (fst v) ≤ 90 ∧ snd (fst v) ≤ 108 ∧ snd v ≤ 90.
Proof.
  unfold Input.transform_coordinates_to_voxel_space. run_monad. cbn.
  intros [= <-] Hr Hv.
  rewrite map_map, map_fmap in Hr. apply list_elem_of_fmap in Hr as (r0 & -> & _).
  cbn in Hv. rewrite map_map, map_fmap in Hv. apply list_elem_of_fmap in Hv as (v0 & -> & _).
  destruct v0 as [[v0 v1] v2]. cbn. lia.
Qed.

(** Below the grid nothing is done, whatever the affine: a voxel
    coordinate under zero comes back as it is. *)
Lemma minimum_keeps_below_grid (v : Z * Z * Z) :
  fst (fst v) < 0 ∨ snd (fst v) < 0 ∨ snd v < 0 →
  ¬ Input.in_grid (Input.minimum v Input.thresholds).
Proof. destruct v as [[v0 v1] v2]. unfold Input.in_grid. cbn. lia. Qed.

Example focus_in_grid :
  fst (Input.transform_coordinates_to_voxel_space inverse_affine_2mm
         [(0, one_focus (12 # 1, 18 # 1, 48 # 1)%Q)] empty_world)
  = Ok [(0, {| Input.vx_row := one_focus (12 # 1, 18 # 1, 48 # 1)%Q;
               Input.vx_Coordinates := [(39, 72, 60)] |})].
Proof. by vm_compute. Qed.

Example focus_capped :
  fst (Input.transform_coordinates_to_voxel_space inverse_affine_2mm
         [(0, one_focus (-500 # 1, 18 # 1, 48 # 1)%Q)] empty_world)
  = Ok [(0, {| Input.vx_row := one_focus (-500 # 1, 18 # 1, 48 # 1)%Q;
               Input.vx_Coordinates := [(90, 72, 60)] |})].
Proof. by vm_compute. Qed.

(** C4: with the x coordinate of a focus set to 500 mm, as the test of
    the transform does, the voxel coordinate is -205, below the grid; it
    is returned as it is, and nothing is printed. *)
Theorem coordinate_outside_grid_unreported :
  Input.transform_coordinates_to_voxel_space inverse_affine_2mm
    [(0, one_focus (500 # 1, 18 # 1, 48 # 1)%Q)] empty_world
  = (Ok [(0, {| Input.vx_row := one_focus (500 # 1, 18 # 1, 48 # 1)%Q;
                Input.vx_Coordinates := [(-205, 72, 60)] |})],
     empty_world)
  ∧ stdout empty_world = []
  ∧ ¬ Input.in_grid (-205, 72, 60).
Proof.
  split; [by vm_compute | split; [done |]].
  unfold Input.in_grid. lia.
Qed.

(** ** Corrected thresholds *)

Lemma simulate_length (N : MainEffect.numerics) (exp_df : ExperimentFrame)
    (bin_steps cluster_forming_threshold : Q) (tfce_enabled : bool) (target_n : option Z)
    (n : nat) :
  length (MainEffect.simulate N exp_df bin_steps cluster_forming_threshold tfce_enabled
            target_n n) = n.
Proof. unfold MainEffect.simulate. by rewrite length_map, length_seq. Qed.

(** C6: with cutoff prediction off, a positive number of iterations and
    a cache file that, if present, is one [main_effect] wrote, the three
    thresholds are the 95th percentiles of the three null vectors; the
    vectors are in the cache file afterwards; and when they were
    simulated, each holds one value per iteration. *)
Theorem thresholds_are_percentiles (N : MainEffect.numerics) (project_path : string)
    (exp_df : ExperimentFrame) (meta_name : string) (tfce_enabled : bool)
    (bin_steps cluster_forming_threshold : Q) (monte_carlo_iterations : nat) (w : world) :
  (0 < monte_carlo_iterations)%nat →
  (∀ f, fs w !! MainEffect.montecarlo_pickle project_path meta_name = Some f →
        ∃ v c t, f = PickledNulls v c t) →
  let nulls := null_vectors N project_path exp_df meta_name tfce_enabled bin_steps
                 cluster_forming_threshold monte_carlo_iterations w in
  let run := MainEffect.monte_carlo_thresholds N project_path exp_df meta_name tfce_enabled
               false bin_steps cluster_forming_threshold monte_carlo_iterations w in
  fst run = Ok (Np.percentile (fst (fst nulls)) 95,
                Np.percentile (snd (fst nulls)) 95,
                Np.percentile (snd nulls) 95)
  ∧ fs (snd run) !! MainEffect.montecarlo_pickle project_path meta_name
    = Some (PickledNulls (fst (fst nulls)) (snd (fst nulls)) (snd nulls))
  ∧ (fs w !! MainEffect.montecarlo_pickle project_path meta_name = None →
     length (fst (fst nulls)) = monte_carlo_iterations
     ∧ length (snd (fst nulls)) = monte_carlo_iterations
     ∧ length (snd nulls) = monte_carlo_iterations).
Proof.
  intros Hpos Hcache nulls run. subst nulls run.
  unfold null_vectors, MainEffect.monte_carlo_thresholds, MainEffect.pickle_load,
    MainEffect.pickle_dump.
  run_monad.
  destruct (fs w !! MainEffect.montecarlo_pickle project_path meta_name) as [f |] eqn:Hf.
  - destruct (Hcache f eq_refl) as (v & c & t & ->).
    rewrite bool_decide_eq_true_2 by eauto. cbn. rewrite Hf. cbn. by rewrite Hf.
  - rewrite bool_decide_eq_false_2 by (intros [? ?]; discriminate). cbn.
    pose proof (simulate_length N exp_df bin_steps cluster_forming_threshold tfce_enabled
                  None monte_carlo_iterations) as Hlen.
    destruct (MainEffect.simulate N exp_df bin_steps cluster_forming_threshold tfce_enabled
                None monte_carlo_iterations) as [| r sims] eqn:Hsim.
    + cbn in Hlen. lia.
    + cbn. rewrite lookup_insert_eq. repeat split; try done;
        cbn; rewrite length_map; cbn in Hlen; lia.
Qed.

Lemma thresholds_are_percentiles_witness :
  fst (MainEffect.monte_carlo_thresholds idle_numerics "/proj/Results/MainEffect" [] "Pain"
         true false (1 # 10000) (1 # 1000) 3 empty_world)
  = Ok (Np.percentile [inject_Z 0; inject_Z 1; inject_Z 2] 95,
        Np.percentile [inject_Z 10; inject_Z 11; inject_Z 12] 95,
        Np.percentile [inject_Z 100; inject_Z 101; inject_Z 102] 95).
Proof.
  refine (proj1 (thresholds_are_percentiles idle_numerics "/proj/Results/MainEffect" []
                   "Pain" true (1 # 10000) (1 # 1000) 3 empty_world _ _)).
  - lia.
  - intros f Hf. vm_compute in Hf. discriminate Hf.
Defined.

Example thresholds_of_three_iterations :
  fst (MainEffect.monte_carlo_thresholds idle_numerics "/proj/Results/MainEffect" [] "Pain"
         true false (1 # 10000) (1 # 1000) 3 empty_world)
  = Ok (Some (19 # 10), Some (119 # 10), Some (1019 # 10)).
Proof. by vm_compute. Qed.

(** ** Foci counted by [concat_coordinates] *)

Lemma array_T_length {A} (fx fy fz : A → Input.cell) (block : list A) :
  length (Input.array_T (map fx block) (map fy block) (map fz block)) = length block.
Proof. induction block as [| a block IH]; cbn; [done | by rewrite IH]. Qed.

Example block_sheet_concat :
  Input.concat_coordinates block_sheet
  = Ok [(0, {| Input.cc_Articles := Some "Abel 2001";
               Input.cc_Subjects := Input.Int 20;
               Input.cc_CoordinateSpace := Some "MNI";
               Input.cc_Tags := [];
               Input.cc_Coordinates_mm :=
                 Some [(Input.Float (12 # 1), Input.Float (18 # 1), Input.Float (48 # 1));
                       (Input.Float (-30 # 1), Input.Float (22 # 1), Input.Float (4 # 1));
                       (Input.Float (6 # 1), Input.Float (-8 # 1), Input.Float (50 # 1))];
               Input.cc_NumberOfFoci := Some 3 |});
        (1, {| Input.cc_Articles := Some "Baker 2004";
               Input.cc_Subjects := Input.Int 20;
               Input.cc_CoordinateSpace := Some "MNI";
               Input.cc_Tags := [];
               Input.cc_Coordinates_mm :=
                 Some [(Input.Float (44 # 1), Input.Float (-60 # 1), Input.Float (10 # 1));
                       (Input.Float (-44 # 1), Input.Float (-62 # 1), Input.Float (12 # 1))];
               Input.cc_NumberOfFoci := Some 2 |})].
Proof. by vm_compute. Qed.

Example integer_sheet_concat :
  map (fun r => (Input.cc_Articles (snd r), Input.cc_NumberOfFoci (snd r)))
      <$> Input.concat_coordinates (Input.rows integer_sheet)
  = Ok [(Some "Abel 2001", Some 2); (Some "Baker 2004", Some 1)].
Proof. by vm_compute. Qed.

Lemma concat_filled_counted (exp_info : Pd.DataFrame Input.RawRow) :
  Forall (fun r => foci_counted (snd r)) (Input.concat_filled exp_info).
Proof.
  apply Forall_lookup. intros i r Hr.
  unfold Input.concat_filled, Pd.reset_index in Hr.
  rewrite list_lookup_imap, map_fmap, list_lookup_fmap in Hr.
  destruct (Input.group_keys exp_info !! i) as [k |]; [| done].
  cbn in Hr. injection Hr as <-. cbn. eexists. split; [done |]. done.
Qed.

(** Selection by label on a table without repeated labels. *)
Section Loc.
Context {R : Type}.
Implicit Types (df : Pd.DataFrame R).

Lemma increasing_index_NoDup df : increasing_index df → NoDup (Pd.index df).
Proof.
  unfold increasing_index. induction 1 as [| a l _ IH Hall]; [constructor |].
  apply NoDup_cons. split; [| done].
  intros Hin. rewrite Forall_forall in Hall. specialize (Hall a Hin). lia.
Qed.

Lemma filter_label_unique df (r : Z * R) :
  NoDup (Pd.index df) → r ∈ df → filter (fun r' => fst r' = fst r) df = [r].
Proof.
  unfold Pd.index. induction df as [| a df IH]; intros Hnd Hr.
  - by apply elem_of_nil in Hr.
  - cbn in Hnd. apply NoDup_cons in Hnd as [Hfresh Hnd].
    apply elem_of_cons in Hr as [-> | Hr].
    + rewrite filter_cons_True by done. f_equal.
      destruct (filter (fun r' => fst r' = fst a) df) as [| b rest] eqn:Hf; [done |].
      exfalso. apply Hfresh.
      assert (Hb : b ∈ filter (fun r' => fst r' = fst a) df) by (rewrite Hf; left).
      apply list_elem_of_filter in Hb as [<- Hb].
      rewrite map_fmap. by apply list_elem_of_fmap_2.
    + rewrite filter_cons_False; [by apply IH |].
      intros Heq. apply Hfresh. rewrite Heq, map_fmap. by apply list_elem_of_fmap_2.
Qed.

Lemma loc_of_rows df (sel : Pd.DataFrame R) :
  NoDup (Pd.index df) → (∀ r, r ∈ sel → r ∈ df) → Pd.loc df (map fst sel) = Ok sel.
Proof.
  intros Hnd. induction sel as [| r sel IH]; intros Hsub; [done |].
  cbn [map Pd.loc]. rewrite filter_label_unique by (done || apply Hsub; left).
  rewrite IH by (intros r' Hr'; apply Hsub; by right). done.
Qed.
End Loc.

(** The loop over the article blocks. *)
Section Blocks.
Variable exp_info : Pd.DataFrame Input.RawRow.
Variables article_rows end_of_articles : list Z.

Lemma concat_block_counts (lines : Pd.DataFrame Input.ConcatRow) (i : nat) :
  is_Some (article_rows !! i) → is_Some (end_of_articles !! i) →
  ∃ lines',
    Input.concat_block exp_info article_rows end_of_articles (Ok lines) i = Ok lines'
    ∧ length lines' = length lines
    ∧ (∀ r, lines' !! i = Some r → foci_counted (snd r))
    ∧ (∀ j, j ≠ i → lines' !! j = lines !! j).
Proof.
  intros [a Ha] [b Hb]. unfold Input.concat_block. rewrite Ha, Hb.
  cbn [mbind result_bind rbind]. eexists. split; [done |].
  split; [by rewrite length_alter |]. split.
  - intros r Hr. rewrite list_lookup_alter_eq in Hr.
    destruct (lines !! i) as [r0 |]; [| done]. injection Hr as <-. cbn.
    eexists. split; [done |]. by rewrite array_T_length, length_map.
  - intros j Hj. by rewrite list_lookup_alter_ne.
Qed.

Lemma concat_blocks_count (idxs : list nat) (lines : Pd.DataFrame Input.ConcatRow) :
  (∀ i, i ∈ idxs → is_Some (article_rows !! i) ∧ is_Some (end_of_articles !! i)) →
  ∃ lines',
    foldl (Input.concat_block exp_info article_rows end_of_articles) (Ok lines) idxs = Ok lines'
    ∧ length lines' = length lines
    ∧ (∀ i r', lines' !! i = Some r' →
         i ∈ idxs ∨ (∃ r, lines !! i = Some r ∧ foci_counted (snd r)) →
         foci_counted (snd r')).
Proof.
  revert lines. induction idxs as [| j idxs IH]; intros lines Hidx.
  - exists lines. split; [done |]. split; [done |].
    intros i r' Hr' [Hin | (r & Hr & Hc)]; [by apply elem_of_nil in Hin |].
    by simplify_eq.
  - destruct (concat_block_counts lines j) as (lines1 & Hstep & Hlen1 & Hat & Hother);
      [apply Hidx; left .. |].
    destruct (IH lines1) as (lines' & Hfold & Hlen & Hcount).
    { intros i Hi. apply Hidx. by right. }
    exists lines'. cbn [foldl]. rewrite Hstep. split; [done |].
    split; [by rewrite Hlen |].
    intros i r' Hr' Hwhy. apply (Hcount i r' Hr').
    destruct (decide (i ∈ idxs)) as [| Hnotin]; [by left | right].
    assert (is_Some (lines1 !! i)) as [r1 Hr1].
    { apply lookup_lt_is_Some. rewrite <- Hlen. by eapply lookup_lt_Some. }
    exists r1. split; [done |].
    destruct (decide (i = j)) as [-> | Hne]; [by apply Hat |].
    rewrite Hother in Hr1 by done.
    destruct Hwhy as [Hin | (r & Hr & Hc)].
    + apply elem_of_cons in Hin as [? | ?]; done.
    + by simplify_eq.
Qed.
End Blocks.

(** C9: on a sheet with an increasing index and at least one line that
    names an article, [concat_coordinates] returns a table, in either
    layout, and every row of it holds a coordinate array together with
    the number of its triplets as [NumberOfFoci]. *)
Theorem concat_coordinates_counts_foci (exp_info : Pd.DataFrame Input.RawRow) :
  increasing_index exp_info →
  (∃ r, r ∈ exp_info ∧ Input.raw_Articles (snd r) ≠ None) →
  ∃ out,
    Input.concat_coordinates exp_info = Ok out
    ∧ Forall (fun r => foci_counted (snd r)) out.
Proof.
  intros Hinc (r & Hr & Harticle). unfold Input.concat_coordinates.
  destruct (length (filter (fun r => Input.raw_Articles (snd r) = None) exp_info) =? 0)%nat.
  { eexists. split; [done | apply concat_filled_counted]. }
  unfold Input.concat_first_lines.
  set (named := filter (fun r => Input.raw_Articles (snd r) ≠ None) exp_info).
  assert (Hnamed : r ∈ named) by (by apply list_elem_of_filter).
  destruct (map (fun l => l - 1) (map fst named)) as [| e popped] eqn:Hends.
  { destruct named; [by apply elem_of_nil in Hnamed | discriminate]. }
  assert (Hlen : length (popped ++ [Pd.len exp_info]) = length named).
  { apply (f_equal length) in Hends. rewrite !length_map in Hends.
    rewrite length_app. cbn in *. lia. }
  rewrite loc_of_rows; first last.
  { intros r' Hr'. by apply list_elem_of_filter in Hr' as [_ ?]. }
  { by apply increasing_index_NoDup. }
  cbn [mbind result_bind rbind].
  set (lines := Pd.reset_index _).
  assert (Hlines : length lines = length named).
  { unfold lines, Pd.reset_index. by rewrite length_imap, length_map. }
  destruct (concat_blocks_count exp_info (map fst named) (popped ++ [Pd.len exp_info])
              (seq 0 (length (map fst named))) lines)
    as (out & Hfold & Hout & Hcount).
  { intros i Hi. apply elem_of_seq in Hi. rewrite length_map in Hi.
    split; apply lookup_lt_is_Some; rewrite ?length_map, ?Hlen; lia. }
  exists out. split; [done |].
  apply Forall_lookup. intros i r' Hr'. apply (Hcount i r' Hr'). left.
  apply elem_of_seq. apply lookup_lt_Some in Hr'. rewrite length_map. lia.
Qed.

Lemma concat_coordinates_counts_foci_witness :
  ∃ out,
    Input.concat_coordinates block_sheet = Ok out
    ∧ Forall (fun r => foci_counted (snd r)) out.
Proof.
  apply (concat_coordinates_counts_foci block_sheet).
  - unfold increasing_index. cbn. repeat (constructor; [| repeat constructor; lia]).
    constructor.
  - exists (0, block_line (Some "Abel 2001") (12 # 1) (18 # 1) (48 # 1)).
    split; [left | done].
Defined.

(** ** The dispatcher of the main effect, in general *)

(** As long as the collaborators leave it alone, the file
    [run_main_effect] looks for is never created by [run_main_effect]:
    every run finds the world as undecided as the run before. *)
Lemma run_main_effect_keeps_result_path {Tasks Mask : Type}
    (C : @Ale.collaborators Tasks Mask) (analysis_df : Ale.AnalysisFrame) (row_idx : nat)
    (project_path : string) (params : Ale.Params) (exp_all_df : ExperimentFrame)
    (tasks : Tasks) (name : option string) :
  Ale.iloc analysis_df row_idx 1 = Ok name →
  (∀ df m b, keeps (Ale.main_effect_result_path project_path (Ale.fmt_cell name))
               (Ale.contribution C project_path df m tasks b)) →
  (∀ df m mask mask_name n,
      keeps (Ale.main_effect_result_path project_path (Ale.fmt_cell name))
            (Ale.roi_ale C project_path df m mask mask_name n)) →
  keeps (Ale.main_effect_result_path project_path (Ale.fmt_cell name))
        (Ale.run_main_effect C analysis_df row_idx project_path params exp_all_df tasks).
Proof.
  intros Hname Hcontribution Hroi.
  unfold Ale.run_main_effect. rewrite Hname.
  apply keeps_bind; [apply keeps_lift | intros cell].
  apply keeps_bind; [apply keeps_path_exists | intros e].
  apply keeps_if; [apply keeps_logger_info |].
  apply keeps_bind; [apply keeps_logger_info | intros _].
  apply keeps_bind; [apply keeps_lift | intros conditions].
  apply keeps_bind; [apply keeps_lift | intros [[exp_idxs masks] mask_names]].
  apply keeps_bind; [apply keeps_lift | intros exp_df].
  apply keeps_bind; [| intros _].
  - unfold Ale.call_main_effect_full, Call.invoke.
    apply keeps_bind; [apply keeps_lift | intros _].
    apply main_effect_keeps_result_path.
  - apply keeps_bind; [apply Hcontribution | intros _].
    apply keeps_for_each. intros [idx mask]. cbn [fst snd].
    destruct (mask_names !! idx); [apply Hroi | apply keeps_raise].
Qed.

(** * Further properties *)

(** ** Selecting the experiments of an analysis *)

Lemma rows_of_labels {R : Type} (df : Pd.DataFrame R) (labels : list Z) :
  (∀ l, l ∈ labels → l ∈ Pd.index df) →
  ∃ sel : Pd.DataFrame R, map fst sel = labels ∧ ∀ r, r ∈ sel → r ∈ df.
Proof.
  induction labels as [| l labels IH]; intros Hin.
  - exists []. split; [done |]. intros r Hr. by apply elem_of_nil in Hr.
  - destruct IH as (sel & Hsel & Hsub); [intros l' Hl'; apply Hin; by right |].
    assert (Hl : l ∈ Pd.index df) by (apply Hin; left).
    unfold Pd.index in Hl. rewrite map_fmap in Hl.
    apply list_elem_of_fmap in Hl as (r & -> & Hr).
    exists (r :: sel). split; [cbn; by rewrite Hsel |].
    intros r' Hr'. apply elem_of_cons in Hr' as [-> | Hr']; [done | by apply Hsub].
Qed.

(** X1: on a table without repeated labels, and for labels that all
    occur in it, [exp_all_df.loc[exp_idxs].reset_index(drop=True)]
    returns one row per label, in the order of the labels, numbered from
    zero: row i holds the experiment that carried the i-th label, and the
    label itself is gone. *)
Theorem select_experiments_by_position (exp_all_df : ExperimentFrame) (exp_idxs : list Z) :
  NoDup (Pd.index exp_all_df) →
  (∀ l, l ∈ exp_idxs → l ∈ Pd.index exp_all_df) →
  ∃ out,
    Ale.select_experiments exp_all_df exp_idxs = Ok out
    ∧ Pd.index out = Z.of_nat <$> seq 0 (length exp_idxs)
    ∧ ∀ i l, exp_idxs !! i = Some l →
        ∃ e, (l, e) ∈ exp_all_df ∧ out !! i = Some (Z.of_nat i, e).
Proof.
  intros Hnd Hin.
  destruct (rows_of_labels exp_all_df exp_idxs Hin) as (sel & Hsel & Hsub).
  exists (Pd.reset_index sel). unfold Ale.select_experiments.
  rewrite <- Hsel, loc_of_rows by done. split; [done |]. split.
  - unfold Pd.index, Pd.reset_index. rewrite length_map.
    apply list_eq. intros i.
    rewrite map_fmap, !list_lookup_fmap, list_lookup_imap.
    destruct (sel !! i) as [r |] eqn:Hr; cbn.
    + rewrite lookup_seq_lt by (by eapply lookup_lt_Some). done.
    + rewrite lookup_seq_ge by (by apply lookup_ge_None). done.
  - intros i l Hl. rewrite map_fmap, list_lookup_fmap in Hl.
    destruct (sel !! i) as [[l' e] |] eqn:Hr; [| done]. cbn in Hl. injection Hl as ->.
    exists e. split; [apply Hsub; by eapply list_elem_of_lookup_2 |].
    unfold Pd.reset_index. by rewrite list_lookup_imap, Hr.
Qed.

Lemma select_experiments_by_position_witness :
  ∃ out,
    Ale.select_experiments four_experiments [3; 1] = Ok out
    ∧ Pd.index out = Z.of_nat <$> seq 0 (length [3; 1])
    ∧ ∀ i l, [3; 1] !! i = Some l →
        ∃ e, (l, e) ∈ four_experiments ∧ out !! i = Some (Z.of_nat i, e).
Proof.
  apply (select_experiments_by_position four_experiments [3; 1]).
  - cbn. apply NoDup_ListNoDup. repeat constructor; cbn; lia.
  - intros l Hl. cbn. set_unfold. lia.
Defined.

(** X2: a label that no row of the table carries makes the selection
    raise [KeyError]. *)
Theorem select_experiments_missing_label (exp_all_df : ExperimentFrame) (exp_idxs : list Z)
    (l : Z) :
  l ∈ exp_idxs → l ∉ Pd.index exp_all_df →
  ∃ msg, Ale.select_experiments exp_all_df exp_idxs = Raise (KeyError msg).
Proof.
  intros Hl Hmissing. unfold Ale.select_experiments.
  induction exp_idxs as [| l0 rest IH]; [by apply elem_of_nil in Hl |].
  cbn [Pd.loc].
  destruct (filter (fun r : Z * Experiment => fst r = l0) exp_all_df) as [| r rows] eqn:Hf.
  - by eexists.
  - apply elem_of_cons in Hl as [-> | Hl].
    + exfalso. apply Hmissing.
      assert (Hr : r ∈ filter (fun r : Z * Experiment => fst r = l0) exp_all_df)
        by (rewrite Hf; left).
      apply list_elem_of_filter in Hr as [<- Hr].
      unfold Pd.index. rewrite map_fmap. by apply list_elem_of_fmap_2.
    + destruct (IH Hl) as [msg Hmsg]. exists msg.
      destruct (Pd.loc exp_all_df rest); [discriminate | done].
Qed.

Lemma select_experiments_missing_label_witness :
  ∃ msg, Ale.select_experiments four_experiments [1; 7] = Raise (KeyError msg).
Proof.
  apply (select_experiments_missing_label four_experiments [1; 7] 7).
  - set_unfold. lia.
  - cbn. set_unfold. lia.
Defined.

(** ** The second row of a contrast *)

(** X3: a contrast or balanced contrast asked for on the last row of
    the analysis sheet, or beyond it, has no second row to read:
    [setup_contrast_data] raises [IndexError], and both dispatchers end
    with that exception before anything is logged or written. *)
Theorem contrast_without_second_row {Tasks Mask : Type} (C : @Ale.collaborators Tasks Mask)
    (analysis_df : Ale.AnalysisFrame) (row_idx : nat) (project_path : string)
    (params : Ale.Params) (exp_all_df : ExperimentFrame) (tasks : Tasks) (w : world) :
  (length analysis_df ≤ row_idx + 1)%nat →
  Ale.setup_contrast_data C analysis_df row_idx exp_all_df tasks = Raise IndexError
  ∧ Ale.run_contrast_analysis C analysis_df row_idx project_path params exp_all_df tasks w
    = (Raise IndexError, w)
  ∧ Ale.run_balanced_contrast C analysis_df row_idx project_path params exp_all_df tasks w
    = (Raise IndexError, w).
Proof.
  intros Hlast.
  assert (Hsetup : Ale.setup_contrast_data C analysis_df row_idx exp_all_df tasks
                   = Raise IndexError).
  { unfold Ale.setup_contrast_data, Ale.iloc, Ale.AnalysisFrame in *.
    rewrite (lookup_ge_None_2 analysis_df (row_idx + 1)) by lia.
    destruct (analysis_df !! row_idx) as [cells |]; [| done].
    by destruct (cells !! 1%nat). }
  split; [done |].
  unfold Ale.run_contrast_analysis, Ale.run_balanced_contrast.
  rewrite Hsetup. by run_monad.
Qed.

Lemma contrast_without_second_row_witness :
  Ale.setup_contrast_data tagged contrast_rows 1 four_experiments tt = Raise IndexError
  ∧ Ale.run_contrast_analysis tagged contrast_rows 1 "/proj" some_params four_experiments tt
      empty_world
    = (Raise IndexError, empty_world)
  ∧ Ale.run_balanced_contrast tagged contrast_rows 1 "/proj" some_params four_experiments tt
      empty_world
    = (Raise IndexError, empty_world).
Proof.
  apply (contrast_without_second_row tagged contrast_rows 1 "/proj" some_params
           four_experiments tt empty_world).
  cbn. lia.
Defined.

(** ** The default target size, by size of the smaller pool *)

(** X4: without an explicit size in the type code, the target size is
    m - 2 for a smaller pool of up to 21 experiments and
    floor((m + 17) / 2) from 21 experiments on; for pools of at most two
    experiments it is zero or negative. *)
Theorem determine_target_n_by_pool_size (c : ascii) (df1 df2 : ExperimentFrame)
    (more : list ExperimentFrame) :
  ∃ target_n,
    Ale.determine_target_n (String c "") (df1 :: df2 :: more) = Ok target_n
    ∧ (Z.min (Pd.len df1) (Pd.len df2) ≤ 21 →
       target_n = Z.min (Pd.len df1) (Pd.len df2) - 2)
    ∧ (21 ≤ Z.min (Pd.len df1) (Pd.len df2) →
       target_n = (Z.min (Pd.len df1) (Pd.len df2) + 17) / 2)
    ∧ (target_n ≤ 0 ↔ Z.min (Pd.len df1) (Pd.len df2) ≤ 2).
Proof.
  eexists. split.
  - unfold Ale.determine_target_n. cbn [Py.len String.length].
    change (1 <? Z.of_nat 1)%Z with false. cbv iota.
    cbn [Np.min_int fold_left mbind result_bind rbind].
    by rewrite mean_with_17.
  - set (m := Z.min (Pd.len df1) (Pd.len df2)).
    assert (Hm : 0 ≤ m) by (unfold m, Pd.len; lia).
    pose proof (Z.div_mod (m + 17) 2 ltac:(lia)) as Hdiv.
    pose proof (Z.mod_pos_bound (m + 17) 2 ltac:(lia)) as Hmod.
    repeat split; lia.
Qed.

(** ** The cache of the Monte Carlo null of [main_effect] *)

(** X5: once the null has been simulated and pickled, a later run for
    the same name reads it back and arrives at the same three
    thresholds, without simulating and without writing, whatever
    experiments, flags and iteration count the later run is given. *)
Theorem null_cache_round_trip (N : MainEffect.numerics) (project_path meta_name : string)
    (exp_df exp_df' : ExperimentFrame) (tfce_enabled tfce_enabled' : bool)
    (bin_steps cluster_forming_threshold bin_steps' cluster_forming_threshold' : Q)
    (monte_carlo_iterations monte_carlo_iterations' : nat) (w : world) :
  (0 < monte_carlo_iterations)%nat →
  fs w !! MainEffect.montecarlo_pickle project_path meta_name = None →
  ∃ thresholds w1,
    MainEffect.monte_carlo_thresholds N project_path exp_df meta_name tfce_enabled false
      bin_steps cluster_forming_threshold monte_carlo_iterations w
    = (Ok thresholds, w1)
    ∧ MainEffect.monte_carlo_thresholds N project_path exp_df' meta_name tfce_enabled' false
        bin_steps' cluster_forming_threshold' monte_carlo_iterations' w1
      = (Ok thresholds,
         World (fs w1) (log w1 ++ [(INFO, meta_name +:+ " - loading null")]) (stdout w1)).
Proof.
  intros Hpos Hnone.
  unfold MainEffect.monte_carlo_thresholds, MainEffect.pickle_load, MainEffect.pickle_dump.
  run_monad. rewrite Hnone.
  rewrite bool_decide_eq_false_2 by (intros [? ?]; discriminate). cbn.
  pose proof (simulate_length N exp_df bin_steps cluster_forming_threshold tfce_enabled
                None monte_carlo_iterations) as Hlen.
  destruct (MainEffect.simulate N exp_df bin_steps cluster_forming_threshold tfce_enabled
              None monte_carlo_iterations) as [| r sims] eqn:Hsim; [cbn in Hlen; lia |].
  cbn. do 2 eexists. split; [done |]. cbn.
  rewrite lookup_insert_eq.
  rewrite bool_decide_eq_true_2 by eauto. cbn. by rewrite lookup_insert_eq.
Qed.

Lemma null_cache_round_trip_witness :
  ∃ thresholds w1,
    MainEffect.monte_carlo_thresholds idle_numerics "/proj/Results/MainEffect" [] "Pain" true
      false (1 # 10000) (1 # 1000) 3 empty_world
    = (Ok thresholds, w1)
    ∧ MainEffect.monte_carlo_thresholds idle_numerics "/proj/Results/MainEffect"
        four_experiments "Pain" false false (1 # 100) (1 # 10) 50 w1
      = (Ok thresholds,
         World (fs w1) (log w1 ++ [(INFO, "Pain" +:+ " - loading null")]) (stdout w1)).
Proof.
  apply (null_cache_round_trip idle_numerics "/proj/Results/MainEffect" "Pain" []
           four_experiments true false (1 # 10000) (1 # 1000) (1 # 100) (1 # 10) 3 50
           empty_world).
  - lia.
  - reflexivity.
Defined.

(** ** The cut-off of the subsampled analysis *)

(** X6: when the pickle [probabilistic_ale] looks for is absent and the
    iteration count is positive, the cluster cut-off is the 95th
    percentile of the maximal cluster masses of the simulated iterations,
    simulated with TFCE off and with the target size; that one vector,
    not the three, is what gets pickled. *)
Theorem subsampling_cutoff_is_percentile (N : MainEffect.numerics)
    (project_path meta_name : string) (exp_df : ExperimentFrame)
    (bin_steps cluster_forming_threshold : Q) (monte_carlo_iterations : nat)
    (target_n : option Z) (w : world) :
  (0 < monte_carlo_iterations)%nat →
  fs w !! MainEffect.cv_pickle_checked project_path meta_name target_n = None →
  MainEffect.cv_cluster_cutoff N project_path exp_df meta_name bin_steps
    cluster_forming_threshold monte_carlo_iterations target_n w
  = (Ok (Np.percentile
           (map (fun r => snd (fst r))
                (MainEffect.simulate N exp_df bin_steps cluster_forming_threshold false
                   target_n monte_carlo_iterations)) 95),
     World (<[MainEffect.cv_pickle_written project_path meta_name target_n :=
                PickledVector
                  (map (fun r => snd (fst r))
                       (MainEffect.simulate N exp_df bin_steps cluster_forming_threshold
                          false target_n monte_carlo_iterations))]> (fs w))
           (log w ++ [(INFO, meta_name +:+ " - entering probabilistic ALE routine.");
                      (INFO, meta_name +:+ " - computing cv cluster cut-off.")])
           (stdout w)).
Proof.
  intros Hpos Hnone.
  unfold MainEffect.cv_cluster_cutoff, MainEffect.pickle_load, MainEffect.pickle_dump.
  run_monad. cbn. rewrite Hnone.
  rewrite bool_decide_eq_false_2 by (intros [? ?]; discriminate). cbn.
  pose proof (simulate_length N exp_df bin_steps cluster_forming_threshold false
                target_n monte_carlo_iterations) as Hlen.
  destruct (MainEffect.simulate N exp_df bin_steps cluster_forming_threshold false
              target_n monte_carlo_iterations) as [| r sims] eqn:Hsim; [cbn in Hlen; lia |].
  cbn. by rewrite <- app_assoc.
Qed.

Lemma subsampling_cutoff_is_percentile_witness :
  fst (MainEffect.cv_cluster_cutoff idle_numerics "/proj/Results/MainEffect/CV" [] "Pain"
         (1 # 10000) (1 # 1000) 3 (Some 2) empty_world)
  = Ok (Np.percentile [inject_Z 10; inject_Z 11; inject_Z 12] 95).
Proof.
  rewrite (subsampling_cutoff_is_percentile idle_numerics "/proj/Results/MainEffect/CV"
             "Pain" [] (1 # 10000) (1 # 1000) 3 (Some 2) empty_world).
  - reflexivity.
  - lia.
  - reflexivity.
Defined.

(** ** Files [main_effect] tests for but never writes *)

(** X7: [main_effect] tests for [Full/NullDistributions/<name>.pickle]
    before computing the ALE map and for [Full/Volumes/<name>_vfwe.nii]
    before thresholding, but writes neither of the two: a run leaves both
    as it found them. *)
Theorem main_effect_keeps_its_own_tests (N : MainEffect.numerics) (project_path : string)
    (exp_df : ExperimentFrame) (meta_name : string) (tfce_enabled cutoff_predict_enabled : bool)
    (bin_steps cluster_forming_threshold : Q) (monte_carlo_iterations : nat) (nprocesses : Z) :
  keeps (path_join (path_join project_path "Results/MainEffect")
                   ("Full/NullDistributions/" +:+ meta_name +:+ ".pickle"))
        (MainEffect.main_effect N project_path exp_df meta_name tfce_enabled
           cutoff_predict_enabled bin_steps cluster_forming_threshold
           monte_carlo_iterations nprocesses)
  ∧ keeps (path_join (path_join project_path "Results/MainEffect")
                     ("Full/Volumes/" +:+ meta_name +:+ "_vfwe.nii"))
          (MainEffect.main_effect N project_path exp_df meta_name tfce_enabled
             cutoff_predict_enabled bin_steps cluster_forming_threshold
             monte_carlo_iterations nprocesses).
Proof.
  split;
    unfold MainEffect.main_effect, MainEffect.foci_illustration, MainEffect.ale_calculation,
      MainEffect.z_and_tfce, MainEffect.monte_carlo_thresholds, MainEffect.thresholding,
      MainEffect.np_save, MainEffect.np_savez_compressed, MainEffect.to_csv,
      MainEffect.plot_and_save, MainEffect.nb_load, MainEffect.pickle_load,
      MainEffect.pickle_dump;
    keeps_all.
Qed.

(** ** Files a completed run leaves in place *)

Lemma retains_ret {A} p (a : A) : retains p (mret a).
Proof. by intros w. Qed.

Lemma retains_bind {A B} p (m : M A) (k : A → M B) :
  retains p m → (∀ a, retains p (k a)) → retains p (m ≫= k).
Proof.
  intros Hm Hk w Hw. run_monad. specialize (Hm w Hw).
  destruct (m w) as [[a | e] w']; cbn in *; [by apply Hk | done].
Qed.

Lemma retains_lift {A} p (r : result A) : retains p (lift r).
Proof. by intros w. Qed.

Lemma retains_path_exists p q : retains p (path_exists q).
Proof. by intros w. Qed.

Lemma retains_logger_info p msg : retains p (logger_info msg).
Proof. by intros w. Qed.

Lemma retains_read_file p q : retains p (read_file q).
Proof. intros w Hw. unfold read_file. by destruct (fs w !! q). Qed.

Lemma retains_write_file p q f : retains p (write_file q f).
Proof.
  intros w Hw. cbn. destruct (decide (q = p)) as [-> | Hne].
  - rewrite lookup_insert_eq. eauto.
  - by rewrite lookup_insert_ne.
Qed.

Lemma retains_if {A} p (b : bool) (m1 m2 : M A) :
  retains p m1 → retains p m2 → retains p (if b then m1 else m2).
Proof. by destruct b. Qed.

Ltac retains_all :=
  repeat first
    [ apply retains_bind; [| intros ? ]
    | apply retains_if
    | apply retains_write_file
    | apply retains_ret
    | apply retains_lift
    | apply retains_path_exists
    | apply retains_logger_info
    | apply retains_read_file
    | match goal with
      | |- retains _ (let '(_, _) := ?t in _) => destruct t
      | |- retains _ (match ?t with _ => _ end) => destruct t
      end ].

Lemma provides_bind_l {A B} p (m : M A) (k : A → M B) :
  provides p m → (∀ a, retains p (k a)) → provides p (m ≫= k).
Proof.
  intros Hm Hk w Hok. run_monad. specialize (Hm w).
  destruct (m w) as [[a | e] w']; cbn in *; [| done].
  apply Hk. by apply Hm.
Qed.

Lemma provides_bind_r {A B} p (m : M A) (k : A → M B) :
  (∀ a, provides p (k a)) → provides p (m ≫= k).
Proof.
  intros Hk w Hok. run_monad.
  destruct (m w) as [[a | e] w']; cbn in *; [by apply Hk | done].
Qed.

Lemma provides_write_file p f : provides p (write_file p f).
Proof. intros w _. cbn. rewrite lookup_insert_eq. eauto. Qed.

(** A file that is tested for is there in the end if the branch taken
    when it is found retains it and the other branch provides it. *)
Lemma provides_tested {A} p (k : bool → M A) :
  retains p (k true) → provides p (k false) → provides p (path_exists p ≫= k).
Proof.
  intros Hfound Hmissing w Hok. run_monad. cbn in *.
  destruct (bool_decide (is_Some (fs w !! p))) eqn:Hp.
  - apply Hfound. by apply bool_decide_eq_true in Hp.
  - by apply Hmissing.
Qed.

(** X8: a run of [main_effect] that returns normally leaves the z map
    in place, the uncorrected TFCE map if TFCE is on, and the pickle of
    the Monte Carlo null if cutoff prediction is off: the three files
    whose presence makes the next run load instead of compute. *)
Theorem main_effect_leaves_its_caches (N : MainEffect.numerics) (project_path : string)
    (exp_df : ExperimentFrame) (meta_name : string) (tfce_enabled cutoff_predict_enabled : bool)
    (bin_steps cluster_forming_threshold : Q) (monte_carlo_iterations : nat) (nprocesses : Z)
    (w : world) :
  is_ok (fst (MainEffect.main_effect N project_path exp_df meta_name tfce_enabled
                cutoff_predict_enabled bin_steps cluster_forming_threshold
                monte_carlo_iterations nprocesses w)) = true →
  let w' := snd (MainEffect.main_effect N project_path exp_df meta_name tfce_enabled
                   cutoff_predict_enabled bin_steps cluster_forming_threshold
                   monte_carlo_iterations nprocesses w) in
  let results := path_join project_path "Results/MainEffect" in
  is_Some (fs w' !! path_join results ("Full/Volumes/" +:+ meta_name +:+ "_z.nii"))
  ∧ (tfce_enabled = true →
     is_Some (fs w' !! path_join results
                         ("Full/Volumes/" +:+ meta_name +:+ "_tfce_uncorrected.nii")))
  ∧ (cutoff_predict_enabled = false →
     is_Some (fs w' !! MainEffect.montecarlo_pickle results meta_name)).
Proof.
  intros Hok w' results. subst w' results. split; [| split].
  - revert w Hok. fold (provides (A:=unit)).
    unfold MainEffect.main_effect, MainEffect.resolve.
    do 5 (apply provides_bind_r; intros _).
    apply provides_bind_l.
    + unfold MainEffect.z_and_tfce. apply provides_tested; cbv beta iota.
      * unfold MainEffect.nb_load, MainEffect.plot_and_save. retains_all.
      * apply provides_bind_l.
        -- apply provides_bind_r. intros _. apply provides_write_file.
        -- intros _. unfold MainEffect.nb_load, MainEffect.plot_and_save. retains_all.
    + intros _.
      unfold MainEffect.monte_carlo_thresholds, MainEffect.thresholding,
        MainEffect.plot_and_save, MainEffect.pickle_load, MainEffect.pickle_dump.
      retains_all.
  - intros ->. revert w Hok. fold (provides (A:=unit)).
    unfold MainEffect.main_effect, MainEffect.resolve.
    do 5 (apply provides_bind_r; intros _).
    apply provides_bind_l.
    + unfold MainEffect.z_and_tfce. apply provides_bind_r. intros e.
      apply provides_bind_r. intros _. apply provides_tested; cbv beta iota.
      * unfold MainEffect.nb_load. retains_all.
      * apply provides_write_file.
    + intros _.
      unfold MainEffect.monte_carlo_thresholds, MainEffect.thresholding,
        MainEffect.plot_and_save, MainEffect.pickle_load, MainEffect.pickle_dump.
      retains_all.
  - intros ->. revert w Hok. fold (provides (A:=unit)).
    unfold MainEffect.main_effect, MainEffect.resolve.
    do 6 (apply provides_bind_r; intros _).
    apply provides_bind_l.
    + unfold MainEffect.monte_carlo_thresholds. cbv iota.
      apply provides_tested; cbv beta iota.
      * unfold MainEffect.pickle_load. retains_all.
      * apply provides_bind_l.
        -- apply provides_bind_r. intros _. apply provides_bind_r. intros [[v c] t].
           apply provides_bind_l; [apply provides_write_file | intros _; apply retains_ret].
        -- intros [[v c] t]. apply retains_ret.
    + intros thresholds.
      unfold MainEffect.thresholding, MainEffect.plot_and_save. retains_all.
Qed.

Lemma main_effect_leaves_its_caches_witness :
  is_Some (fs (snd (MainEffect.main_effect idle_numerics "/proj" [] "Pain" true false
                      (1 # 10000) (1 # 1000) 3 2 empty_world))
           !! "/proj/Results/MainEffect/Full/Volumes/Pain_z.nii").
Proof.
  refine (proj1 (main_effect_leaves_its_caches idle_numerics "/proj" [] "Pain" true false
                   (1 # 10000) (1 # 1000) 3 2 empty_world _)).
  vm_compute. reflexivity.
Defined.

(** ** What the check of the coordinates reports *)


(** ** What the voxel transform keeps *)

(** X10: [transform_coordinates_to_voxel_space] always returns; it
    keeps every row with its label and its other columns, gives each
    experiment as many voxel coordinates as it has foci, and no returned
    coordinate exceeds 90, 108 and 90 on the three axes. *)
Theorem transform_keeps_rows_and_caps (inv_affine : Input.matrix4)
    (exp_info : Pd.DataFrame Input.MmRow) (w : world) :
  ∃ out,
    Input.transform_coordinates_to_voxel_space inv_affine exp_info w = (Ok out, w)
    ∧ Forall2
        (fun (r : Z * Input.MmRow) (o : Z * Input.VoxelRow) =>
           fst o = fst r
           ∧ Input.vx_row (snd o) = snd r
           ∧ length (Input.vx_Coordinates (snd o)) = length (Input.mm_Coordinates_mm (snd r))
           ∧ Forall (fun v : Z * Z * Z => fst (fst v) ≤ 90 ∧ snd (fst v) ≤ 108 ∧ snd v ≤ 90)
                    (Input.vx_Coordinates (snd o)))
        exp_info out.
Proof.
  eexists. split; [reflexivity |].
  rewrite map_map. induction exp_info as [| r rows IH]; [constructor |].
  cbn [map]. constructor; [| exact IH]. cbn.
  split; [done |]. split; [done |]. split; [by rewrite !length_map |].
  rewrite map_map. apply Forall_forall. intros v Hv.
  rewrite map_fmap in Hv.
  apply list_elem_of_fmap in Hv as (p & -> & _).
  destruct (Input.to_voxel inv_affine p) as [[v0 v1] v2]. cbn. lia.
Qed.

(** ** A sheet without any article *)

(** X11: on a sheet that has lines but names an article on none of
    them, [concat_coordinates] raises [IndexError]: the list of block
    ends is empty when its first element is popped. *)
Theorem concat_coordinates_without_article (exp_info : Pd.DataFrame Input.RawRow) :
  exp_info ≠ [] →
  (∀ r, r ∈ exp_info → Input.raw_Articles (snd r) = None) →
  Input.concat_coordinates exp_info = Raise IndexError.
Proof.
  intros Hne Hnone. unfold Input.concat_coordinates, Input.concat_first_lines.
  assert (Hall : filter (fun r : Z * Input.RawRow => Input.raw_Articles (snd r) = None) exp_info
                 = exp_info).
  { clear Hne. induction exp_info as [| r rows IH]; [done |].
    rewrite filter_cons_True by (apply Hnone; left).
    f_equal. apply IH. intros r' Hr'. apply Hnone. by right. }
  assert (Hno : filter (fun r : Z * Input.RawRow => Input.raw_Articles (snd r) ≠ None) exp_info
                = []).
  { clear Hne Hall. induction exp_info as [| r rows IH]; [done |].
    rewrite filter_cons_False by (intros Hr; apply Hr, Hnone; left).
    apply IH. intros r' Hr'. apply Hnone. by right. }
  rewrite Hall, Hno. destruct exp_info; done.
Qed.

Lemma concat_coordinates_without_article_witness :
  Input.concat_coordinates
    [(0, block_line None (12 # 1) (18 # 1) (48 # 1));
     (1, block_line None (-30 # 1) (22 # 1) (4 # 1))]
  = Raise IndexError.
Proof.
  apply concat_coordinates_without_article.
  - discriminate.
  - intros r Hr. set_unfold. by destruct Hr as [-> | [-> | []]].
Defined.

(** ** The overlap removal on the pools of a contrast, in general *)

(** X12: whatever two pools [setup_contrast_data] builds, the removal
    of lines 198-199 cuts as many rows off the front of each as the
    smaller pool has, because both pools are numbered from zero; what is
    left of the larger pool are its rows from that position on. *)
Theorem overlap_removal_after_setup {Tasks Mask : Type} (C : @Ale.collaborators Tasks Mask)
    (analysis_df : Ale.AnalysisFrame) (row_idx : nat) (exp_all_df : ExperimentFrame)
    (tasks : Tasks) (meta_names : list string) (exp_dfs : list ExperimentFrame) :
  Ale.setup_contrast_data C analysis_df row_idx exp_all_df tasks = Ok (meta_names, exp_dfs) →
  ∃ pool1 pool2,
    exp_dfs = [pool1; pool2]
    ∧ Ale.remove_overlap exp_dfs
      = Ok [drop (length pool1 `min` length pool2) pool1;
            drop (length pool1 `min` length pool2) pool2].
Proof.
  unfold Ale.setup_contrast_data, Ale.select_experiments.
  destruct (Ale.iloc analysis_df row_idx 1);
    cbn [mbind result_bind rbind]; [| intros ?; discriminate].
  destruct (Ale.iloc analysis_df (row_idx + 1) 1);
    cbn [mbind result_bind rbind]; [| intros ?; discriminate].
  destruct (Ale.conditions_of analysis_df row_idx) as [conditions1 |];
    cbn [mbind result_bind rbind]; [| intros ?; discriminate].
  destruct (Ale.conditions_of analysis_df (row_idx + 1)) as [conditions2 |];
    cbn [mbind result_bind rbind]; [| intros ?; discriminate].
  destruct (Ale.compile_experiments C conditions1 tasks) as [compiled1 |] eqn:Hc1;
    cbn [mbind result_bind rbind]; [| intros ?; discriminate].
  destruct (Ale.compile_experiments C conditions2 tasks) as [compiled2 |] eqn:Hc2;
    cbn [mbind result_bind rbind]; [| intros ?; discriminate].
  destruct (Pd.loc exp_all_df (fst (fst compiled1))) as [rows1 |];
    cbn [mbind result_bind rbind]; [| intros ?; discriminate].
  destruct (Pd.loc exp_all_df (fst (fst compiled2))) as [rows2 |];
    cbn [mbind result_bind rbind]; [| intros ?; discriminate].
  intros [= <- <-]. do 2 eexists. split; [done |].
  rewrite remove_overlap_by_position.
  unfold Pd.reset_index. by rewrite !length_imap.
Qed.

Lemma overlap_removal_after_setup_witness :
  ∃ pool1 pool2,
    [[(0, experiment "Abel 2001"); (1, experiment "Baker 2004"); (2, experiment "Chen 2010")];
     [(0, experiment "Chen 2010"); (1, experiment "Diaz 2015")]] = [pool1; pool2]
    ∧ Ale.remove_overlap
        [[(0, experiment "Abel 2001"); (1, experiment "Baker 2004"); (2, experiment "Chen 2010")];
         [(0, experiment "Chen 2010"); (1, experiment "Diaz 2015")]]
      = Ok [drop (length pool1 `min` length pool2) pool1;
            drop (length pool1 `min` length pool2) pool2].
Proof.
  apply (overlap_removal_after_setup tagged contrast_rows 0 four_experiments tt
           ["Visual"; "Motor"]).
  vm_compute. reflexivity.
Defined.

(** ** The main loop *)

Lemma for_each_app {A} (l1 l2 : list A) (body : A → M unit) (w : world) :
  for_each (l1 ++ l2) body w
  = match for_each l1 body w with
    | (Ok _, w1) => for_each l2 body w1
    | (Raise e, w1) => (Raise e, w1)
    end.
Proof.
  revert w. induction l1 as [| a l1 IH]; intros w; [done |].
  cbn [app for_each]. unfold World.bind.
  destruct (body a w) as [[[] | e] w']; [apply IH | done].
Qed.

Lemma for_each_no_effect {A} (l : list A) (body : A → M unit) (w : world) :
  (∀ a, a ∈ l → body a w = (Ok tt, w)) → for_each l body w = (Ok tt, w).
Proof.
  induction l as [| a l IH]; intros Hbody; [done |].
  cbn [for_each]. unfold World.bind. rewrite Hbody by left.
  apply IH. intros a' Ha'. apply Hbody. by right.
Qed.

Lemma dispatch_row_passed_over {Tasks Mask : Type} (C : @Ale.collaborators Tasks Mask)
    (K : clustering_collaborators) (analysis_df : Ale.AnalysisFrame) (row_idx : nat)
    (project_path : string) (params : Ale.Params) (clustering_params : ClusteringParams)
    (exp_all_df : ExperimentFrame) (tasks : Tasks) (w : world)
    (cell : option string) (rest : list (option string)) :
  analysis_df !! row_idx = Some (cell :: rest) →
  (cell = None ∨ ∃ code, cell = Some code ∧ passed_over code) →
  dispatch_row C K analysis_df row_idx project_path params clustering_params exp_all_df
    tasks w = (Ok tt, w).
Proof.
  intros Hrow Hcell. unfold dispatch_row, Ale.iloc. rewrite Hrow.
  cbn [lookup list_lookup]. run_monad.
  destruct Hcell as [-> | (code & -> & HM & HC & HCluster & c & tail & -> & HP & HB)];
    [done |].
  apply String.eqb_neq in HM, HC, HCluster. apply Ascii.eqb_neq in HP, HB.
  rewrite HM. cbn [first_char]. by rewrite HP, HC, HB, HCluster.
Qed.

(** X13: rows whose type cell is empty, or holds a code that is none
    of M, C, Cluster and begins with neither P nor B, are passed over: a
    sheet made of such rows leaves files and standard output untouched
    and logs the closing line only.  A code such as "m" or "Main" is
    dropped without a word. *)
Theorem loop_passes_over_other_rows {Tasks Mask : Type} (C : @Ale.collaborators Tasks Mask)
    (K : clustering_collaborators) (analysis_df : Ale.AnalysisFrame)
    (project_path : string) (params : Ale.Params) (clustering_params : ClusteringParams)
    (exp_all_df : ExperimentFrame) (tasks : Tasks) (w : world) :
  (∀ cells, cells ∈ analysis_df →
     ∃ cell rest, cells = cell :: rest
       ∧ (cell = None ∨ ∃ code, cell = Some code ∧ passed_over code)) →
  run_ale_rows C K analysis_df project_path params clustering_params exp_all_df tasks w
  = (Ok tt, World (fs w) (log w ++ [(INFO, "Analysis completed.")]) (stdout w)).
Proof.
  intros Hrows. unfold run_ale_rows. run_monad.
  rewrite for_each_no_effect; [done |].
  intros i Hi. apply elem_of_seq in Hi.
  destruct (lookup_lt_is_Some_2 analysis_df i ltac:(lia)) as [cells Hcells].
  destruct (Hrows cells (list_elem_of_lookup_2 _ _ _ Hcells)) as (cell & rest & -> & Hcell).
  by eapply dispatch_row_passed_over.
Qed.

Lemma loop_passes_over_other_rows_witness :
  run_ale_rows idle idle_clustering
    [[Some "m"; Some "Pain"; Some "+all"]; [None; Some "Motor"; Some "+motor"];
     [Some "Main"; Some "Pain"; Some "+all"]]
    "/proj" some_params some_clustering_params four_experiments tt empty_world
  = (Ok tt, World ∅ [(INFO, "Analysis completed.")] []).
Proof.
  apply (loop_passes_over_other_rows idle idle_clustering _ "/proj" some_params
           some_clustering_params four_experiments tt empty_world).
  intros cells Hcells. set_unfold.
  destruct Hcells as [-> | [-> | [-> | []]]]; do 2 eexists; (split; [reflexivity |]).
  - right. eexists. split; [reflexivity |]. unfold passed_over.
    repeat split; try discriminate. do 2 eexists. repeat split; discriminate.
  - by left.
  - right. eexists. split; [reflexivity |]. unfold passed_over.
    repeat split; try discriminate. do 2 eexists. repeat split; discriminate.
Defined.

(** X14: the loop has no handler: when a row raises, the loop ends
    with that exception in the state the row left, the rows after it are
    not looked at and the closing line is not logged. *)
Theorem loop_stops_at_first_exception {Tasks Mask : Type} (C : @Ale.collaborators Tasks Mask)
    (K : clustering_collaborators) (analysis_df : Ale.AnalysisFrame)
    (project_path : string) (params : Ale.Params) (clustering_params : ClusteringParams)
    (exp_all_df : ExperimentFrame) (tasks : Tasks) (i : nat) (e : exn) (w w1 w2 : world) :
  (i < length analysis_df)%nat →
  for_each (seq 0 i)
    (fun row_idx =>
       dispatch_row C K analysis_df row_idx project_path params clustering_params
         exp_all_df tasks) w = (Ok tt, w1) →
  dispatch_row C K analysis_df i project_path params clustering_params exp_all_df tasks w1
  = (Raise e, w2) →
  run_ale_rows C K analysis_df project_path params clustering_params exp_all_df tasks w
  = (Raise e, w2).
Proof.
  intros Hi Hbefore Hraise. unfold run_ale_rows. run_monad.
  replace (length analysis_df) with (i + S (length analysis_df - S i))%nat by lia.
  rewrite seq_app, for_each_app, Hbefore. cbn [seq for_each Nat.add].
  unfold World.bind. by rewrite Hraise.
Qed.

Lemma loop_stops_at_first_exception_witness :
  run_ale_rows idle idle_clustering
    [[Some "Pabc"; Some "Pain"; Some "+all"]; [Some "M"; Some "Pain"; Some "+all"]]
    "/proj" some_params some_clustering_params four_experiments tt empty_world
  = (Raise (ValueError "invalid literal for int() with base 10: abc"), empty_world).
Proof.
  apply (loop_stops_at_first_exception idle idle_clustering _ "/proj" some_params
           some_clustering_params four_experiments tt 0 _ empty_world empty_world).
  - cbn. lia.
  - reflexivity.
  - vm_compute. reflexivity.
Defined.

(** ** The table of tasks: examples *)

Example tasks_of_three :
  create_tasks_table three_tagged
  = Ok [{| Name := "all"; Num_Exp := 3; Who := ["Abel 2001"; "Baker 2004"; "Chen 2010"];
           TotalSubjects := 65; ExpIndex := [0; 1; 2] |};
        {| Name := "visual"; Num_Exp := 2; Who := ["Abel 2001"; "Chen 2010"];
           TotalSubjects := 50; ExpIndex := [0; 2] |};
        {| Name := "faces"; Num_Exp := 1; Who := ["Abel 2001"];
           TotalSubjects := 20; ExpIndex := [0] |};
        {| Name := "motor"; Num_Exp := 1; Who := ["Baker 2004"];
           TotalSubjects := 15; ExpIndex := [1] |}].
Proof. by vm_compute. Qed.

Example load_excel_good :
  load_excel (fun _ _ => ReadOk good_sheet) "/proj/exp.xlsx" "experiment" empty_world
  = (Ok good_sheet_loaded, empty_world).
Proof. by vm_compute. Qed.

Example load_excel_short_line :
  load_excel (fun _ _ => ReadOk short_line_sheet) "/proj/exp.xlsx" "experiment" empty_world
  = (Raise SystemExit,
     World ∅ [] ["Error: Rows with only one or two entries found at indices: [4]"]).
Proof. by vm_compute. Qed.

(** ** Reading a sheet *)

Lemma filter_nil_none {A} (P : A → Prop) `{∀ x, Decision (P x)} (l : list A) :
  filter P l = [] → ∀ x, x ∈ l → ¬ P x.
Proof.
  induction l as [| a l IH]; intros Hnil x Hx; [by apply elem_of_nil in Hx |].
  destruct (decide (P a)) as [Ha | Ha].
  - by rewrite filter_cons_True in Hnil.
  - rewrite filter_cons_False in Hnil by done.
    apply elem_of_cons in Hx as [-> | Hx]; [done | by apply IH].
Qed.

Lemma short_lines_after_dropna (lines : Pd.DataFrame (list Input.cell)) :
  filter (fun r => notna_count (snd r) = 1%nat ∨ notna_count (snd r) = 2%nat) (dropna_all lines)
  = filter (fun r => notna_count (snd r) = 1%nat ∨ notna_count (snd r) = 2%nat) lines.
Proof.
  unfold dropna_all. induction lines as [| a lines IH]; [done |].
  destruct (decide (notna_count (snd a) ≠ 0%nat)) as [Ha | Ha].
  - rewrite (filter_cons_True (fun r => notna_count (snd r) ≠ 0%nat)) by done.
    destruct (decide (notna_count (snd a) = 1%nat ∨ notna_count (snd a) = 2%nat)).
    + rewrite !filter_cons_True by done. by rewrite IH.
    + rewrite !(filter_cons_False (fun r => notna_count (snd r) = 1%nat ∨ _)) by done. done.
  - rewrite (filter_cons_False (fun r => notna_count (snd r) ≠ 0%nat)) by done.
    rewrite (filter_cons_False (fun r => notna_count (snd r) = 1%nat ∨ _)) by lia. done.
Qed.

(** X15: when [load_excel] returns an experiment sheet, the sheet was
    read, nothing was printed, the lines returned are the lines of the
    sheet that are not empty, each of them has at least three entries,
    and the first six columns carry the standard names, the others
    their own. *)
Theorem load_excel_returns_checked_sheet
    (read_excel : string -> option nat -> read_outcome) (filepath : string)
    (w w' : world) (sheet : Sheet) :
  load_excel read_excel filepath "experiment" w = (Ok sheet, w') →
  w' = w
  ∧ ∃ df, read_excel filepath (Some 0%nat) = ReadOk df
      ∧ sheet_lines sheet = dropna_all (sheet_lines df)
      ∧ Forall (fun r => (3 ≤ notna_count (snd r))%nat) (sheet_lines sheet)
      ∧ (6 ≤ length (sheet_columns df))%nat
      ∧ sheet_columns sheet = (map Header standard_names ++ drop 6 (sheet_columns df))%list.
Proof.
  unfold load_excel. cbn [String.eqb Ascii.eqb Bool.eqb].
  destruct (read_excel filepath (Some 0%nat)) as [df | | | text]; try by intros [=].
  destruct (filter _ (dropna_all (sheet_lines df))) as [| a rest] eqn:Hshort;
    [| by intros [=]].
  unfold rename_first_six.
  destruct (length (sheet_columns df) <? 6)%nat eqn:Hlen; [by intros [=] |].
  intros [= <- <-]. split; [done |]. exists df. cbn [sheet_lines sheet_columns].
  apply Nat.ltb_ge in Hlen. repeat split; try done.
  apply Forall_forall. intros r Hr.
  pose proof (filter_nil_none _ _ Hshort r Hr) as Hnot. cbv beta in Hnot.
  unfold dropna_all in Hr. apply list_elem_of_filter in Hr as [Hne _]. lia.
Qed.

Lemma load_excel_returns_checked_sheet_witness :
  load_excel (fun _ _ => ReadOk good_sheet) "/proj/exp.xlsx" "experiment" empty_world
  = (Ok good_sheet_loaded, empty_world)
  ∧ Forall (fun r => (3 ≤ notna_count (snd r))%nat) (sheet_lines good_sheet_loaded).
Proof.
  assert (load_excel (fun _ _ => ReadOk good_sheet) "/proj/exp.xlsx" "experiment" empty_world
          = (Ok good_sheet_loaded, empty_world)) as Hrun by (by vm_compute).
  split; [exact Hrun |].
  destruct (load_excel_returns_checked_sheet _ _ _ _ _ Hrun)
    as (_ & df & _ & _ & Hall & _). exact Hall.
Defined.



(** X17: an experiment sheet with fewer than six columns whose lines
    all have three entries or more, or none, is not turned into an
    exit: the renaming of the columns raises [ValueError], and nothing
    is printed. *)
Theorem load_excel_narrow_sheet_raises
    (read_excel : string -> option nat -> read_outcome) (filepath : string)
    (w : world) (df : Sheet) :
  read_excel filepath (Some 0%nat) = ReadOk df →
  (length (sheet_columns df) < 6)%nat →
  Forall (fun r => notna_count (snd r) = 0%nat ∨ (3 ≤ notna_count (snd r))%nat)
         (sheet_lines df) →
  ∃ text, load_excel read_excel filepath "experiment" w = (Raise (ValueError text), w).
Proof.
  intros Hread Hlen Hlines. unfold load_excel. cbn [String.eqb Ascii.eqb Bool.eqb].
  rewrite Hread, short_lines_after_dropna.
  replace (filter _ (sheet_lines df)) with (@nil (Z * list Input.cell)).
  - unfold rename_first_six. apply Nat.ltb_lt in Hlen. rewrite Hlen. by eexists.
  - symmetry. induction Hlines as [| a l Ha _ IH]; [done |].
    rewrite filter_cons_False by lia. done.
Qed.

Lemma load_excel_narrow_sheet_raises_witness :
  ∃ text,
    load_excel (fun _ _ => ReadOk {| sheet_columns := map Header ["Author"; "N"; "X"; "Y"; "Z"];
                                     sheet_lines := [(0, [Input.Str "Abel 2001"; Input.Int 20;
                                                          Input.Float (12 # 1);
                                                          Input.Float (18 # 1);
                                                          Input.Float (48 # 1)])] |})
               "/proj/exp.xlsx" "experiment" empty_world
    = (Raise (ValueError text), empty_world).
Proof.
  eapply load_excel_narrow_sheet_raises.
  - reflexivity.
  - cbn. lia.
  - constructor; [right; vm_compute; lia | constructor].
Defined.

(** ** The table of tasks *)

Lemma insert_key_elem (k x : string) (l : list string) :
  x ∈ Input.insert_key k l ↔ x = k ∨ x ∈ l.
Proof.
  induction l as [| k' t IH]; cbn [Input.insert_key].
  - rewrite list_elem_of_singleton, elem_of_nil. tauto.
  - destruct (String.eqb k k') eqn:Heq.
    + apply String.eqb_eq in Heq as ->. rewrite elem_of_cons. tauto.
    + destruct (String.leb k k').
      * by rewrite elem_of_cons.
      * rewrite !elem_of_cons, IH. tauto.
Qed.

Lemma unique_names_elem (x : string) (tags : list string) :
  x ∈ unique_names tags ↔ x ∈ tags.
Proof.
  unfold unique_names. induction tags as [| t tags IH]; [done |].
  cbn [foldr]. rewrite insert_key_elem, elem_of_cons, IH. tauto.
Qed.

Lemma loc_of_labels {R} (df : Pd.DataFrame R) (labels : list Z) :
  (∀ l, l ∈ labels → l ∈ Pd.index df) → ∃ rows, Pd.loc df labels = Ok rows.
Proof.
  induction labels as [| l rest IH]; intros Hin; [by eexists |].
  cbn [Pd.loc].
  destruct IH as [more Hmore]; [intros l' Hl'; apply Hin; by right |].
  assert (l ∈ Pd.index df) as Hl by (apply Hin; by left).
  unfold Pd.index in Hl. rewrite map_fmap in Hl.
  apply list_elem_of_fmap in Hl as (r & -> & Hr).
  destruct (filter (fun r' => fst r' = fst r) df) as [| a rows] eqn:Hf.
  - assert (r ∈ filter (fun r' => fst r' = fst r) df) as Habs
      by (by apply list_elem_of_filter).
    rewrite Hf in Habs. by apply elem_of_nil in Habs.
  - rewrite Hmore. by eexists.
Qed.

Lemma task_row_returns (exp_info : ExperimentFrame) (tags : list string) (task : string) :
  ∃ t, task_row exp_info tags task = Ok t.
Proof.
  unfold task_row.
  destruct (loc_of_labels exp_info
              (map fst (filter (fun r => task ∈ Tags (snd r)) exp_info))) as [rows Hrows].
  - intros l Hl. rewrite map_fmap in Hl. apply list_elem_of_fmap in Hl as (r & -> & Hr).
    apply list_elem_of_filter in Hr as [_ Hr]. unfold Pd.index. rewrite map_fmap.
    by apply list_elem_of_fmap_2.
  - rewrite Hrows. by eexists.
Qed.

Lemma task_row_fields (exp_info : ExperimentFrame) (tags : list string) (task : string)
    (t : Task) :
  task_row exp_info tags task = Ok t →
  Name t = task
  ∧ Num_Exp t = occurrences task tags
  ∧ ExpIndex t = map fst (filter (fun r => task ∈ Tags (snd r)) exp_info)
  ∧ (NoDup (Pd.index exp_info) →
     Who t = map (fun r => Articles (snd r))
                 (filter (fun r => task ∈ Tags (snd r)) exp_info)).
Proof.
  unfold task_row.
  destruct (Pd.loc exp_info _) as [rows | e] eqn:Hloc; [| by intros [=]].
  intros [= <-]. cbn. repeat split. intros Hnd.
  rewrite loc_of_rows in Hloc; [by injection Hloc as <- | done |].
  intros r Hr. by apply list_elem_of_filter in Hr as [_ Hr].
Qed.

Lemma task_rows_returns (exp_info : ExperimentFrame) (tags names : list string) :
  ∃ rows, task_rows exp_info tags names = Ok rows
    ∧ Forall2 (fun task t => task_row exp_info tags task = Ok t) names rows.
Proof.
  induction names as [| task rest (rows & Hrows & Hall)]; [by exists [] |].
  destruct (task_row_returns exp_info tags task) as [t Ht].
  exists (t :: rows). cbn [task_rows]. rewrite Ht, Hrows. split; [done |].
  by constructor.
Qed.

Lemma insert_task_permutation (t : Task) (l : list Task) : insert_task t l ≡ₚ t :: l.
Proof.
  induction l as [| u rest IH]; [done |]. cbn [insert_task].
  destruct (Num_Exp u <=? Num_Exp t); [done |].
  rewrite IH. apply perm_swap.
Qed.

Lemma sort_by_num_exp_permutation (l : list Task) : sort_by_num_exp l ≡ₚ l.
Proof.
  unfold sort_by_num_exp. induction l as [| t l IH]; [done |].
  cbn [foldr]. by rewrite insert_task_permutation, IH.
Qed.

Lemma insert_task_sorted (t : Task) (l : list Task) :
  StronglySorted (fun a b => Num_Exp b ≤ Num_Exp a) l →
  StronglySorted (fun a b => Num_Exp b ≤ Num_Exp a) (insert_task t l).
Proof.
  induction 1 as [| u rest Hsorted IH Hall]; cbn [insert_task].
  - repeat constructor.
  - destruct (Num_Exp u <=? Num_Exp t) eqn:Hle.
    + apply Z.leb_le in Hle. constructor; [by constructor |].
      constructor; [done |]. eapply Forall_impl; [exact Hall |]. cbv beta. intros; lia.
    + apply Z.leb_gt in Hle. constructor; [done |].
      rewrite insert_task_permutation. constructor; [lia | done].
Qed.

Lemma sort_by_num_exp_sorted (l : list Task) :
  StronglySorted (fun a b => Num_Exp b ≤ Num_Exp a) (sort_by_num_exp l).
Proof.
  unfold sort_by_num_exp. induction l as [| t l IH]; [constructor |].
  cbn [foldr]. by apply insert_task_sorted.
Qed.

Lemma create_tasks_table_returns (exp_info : ExperimentFrame) :
  exp_info ≠ [] →
  let tags := concat (map (fun r => Tags (snd r)) exp_info) in
  ∃ rows, create_tasks_table exp_info = Ok (sort_by_num_exp (rows ++ [all_row exp_info]))
    ∧ Forall2 (fun task t => task_row exp_info tags task = Ok t) (unique_names tags) rows.
Proof.
  intros Hne tags. unfold create_tasks_table.
  destruct exp_info as [| r rest]; [done |]. cbn [hstack_tags].
  destruct (task_rows_returns (r :: rest) tags (unique_names tags)) as (rows & Hrows & Hall).
  exists rows. fold tags. cbn [mbind result_bind rbind]. rewrite Hrows. done.
Qed.

Lemma create_tasks_table_rows (exp_info : ExperimentFrame) (tasks : list Task) (t : Task) :
  create_tasks_table exp_info = Ok tasks → t ∈ tasks →
  t = all_row exp_info
  ∨ ∃ task, task ∈ concat (map (fun r => Tags (snd r)) exp_info)
      ∧ task_row exp_info (concat (map (fun r => Tags (snd r)) exp_info)) task = Ok t.
Proof.
  intros Hrun Ht.
  destruct exp_info as [| r rest]; [done |].
  destruct (create_tasks_table_returns (r :: rest)) as (rows & Hrows & Hall); [done |].
  rewrite Hrows in Hrun. injection Hrun as <-.
  rewrite sort_by_num_exp_permutation in Ht.
  apply elem_of_app in Ht as [Ht | Ht].
  - right. apply list_elem_of_lookup in Ht as [i Hi].
    destruct (Forall2_lookup_r _ _ _ _ _ Hall Hi) as (task & Htask & Hrow).
    exists task. split; [| done].
    apply unique_names_elem. by eapply list_elem_of_lookup_2.
  - left. by apply list_elem_of_singleton in Ht.
Qed.

Lemma carriers_counted (task : string) (exp_info : ExperimentFrame) :
  Z.of_nat (length (filter (fun r => task ∈ Tags (snd r)) exp_info))
  ≤ occurrences task (concat (map (fun r => Tags (snd r)) exp_info))
  ∧ (Forall (fun r => NoDup (Tags (snd r))) exp_info →
     occurrences task (concat (map (fun r => Tags (snd r)) exp_info))
     = Z.of_nat (length (filter (fun r => task ∈ Tags (snd r)) exp_info))).
Proof.
  unfold occurrences.
  induction exp_info as [| r rest [IHle IHeq]]; [done |].
  cbn [map concat]. rewrite filter_app, length_app.
  destruct (decide (task ∈ Tags (snd r))) as [Hin | Hout].
  - rewrite filter_cons_True by done. cbn [length].
    assert (1 ≤ length (filter (fun t => t = task) (Tags (snd r))))%nat as Hone.
    { assert (task ∈ filter (fun t => t = task) (Tags (snd r))) as Hf
        by (by apply list_elem_of_filter).
      destruct (filter (fun t => t = task) (Tags (snd r))); [by apply elem_of_nil in Hf |].
      cbn. lia. }
    split; [lia |]. intros Hnd. apply Forall_cons in Hnd as [Hnd Hrest].
    specialize (IHeq Hrest).
    assert (length (filter (fun t => t = task) (Tags (snd r))) ≤ 1)%nat as Hmost.
    { clear -Hnd. induction Hnd as [| a l Hfresh _ IH]; [cbn; lia |].
      destruct (decide (a = task)) as [-> | Hne].
      - rewrite filter_cons_True by done. cbn [length].
        replace (filter (fun t => t = task) l) with (@nil string); [cbn; lia |].
        symmetry. clear IH. induction l as [| b l IH]; [done |].
        rewrite filter_cons_False; [apply IH; set_solver |]. set_solver.
      - by rewrite filter_cons_False. }
    lia.
  - rewrite filter_cons_False by done.
    replace (filter (fun t => t = task) (Tags (snd r))) with (@nil string).
    + cbn [length]. split; [lia |]. intros Hnd. apply Forall_cons in Hnd as [_ Hrest].
      specialize (IHeq Hrest). lia.
    + symmetry. induction (Tags (snd r)) as [| b l IH]; [done |].
      rewrite filter_cons_False; [apply IH; set_solver |]. set_solver.
Qed.

(** X18: for every tag of every experiment the table of tasks has a row
    with the tag as name; the row lists the labels of exactly the
    experiments that carry the tag, in the order of the table, counts
    the occurrences of the tag over all experiments and, when the
    labels of the experiments are distinct, names their articles. *)
Theorem tasks_table_lists_every_tag (exp_info : ExperimentFrame) (r : Z * Experiment)
    (tag : string) :
  r ∈ exp_info → tag ∈ Tags (snd r) →
  let carriers := filter (fun r' => tag ∈ Tags (snd r')) exp_info in
  ∃ tasks t, create_tasks_table exp_info = Ok tasks
    ∧ t ∈ tasks
    ∧ Name t = tag
    ∧ ExpIndex t = map fst carriers
    ∧ fst r ∈ ExpIndex t
    ∧ Num_Exp t = occurrences tag (concat (map (fun r' => Tags (snd r')) exp_info))
    ∧ (NoDup (Pd.index exp_info) → Who t = map (fun r' => Articles (snd r')) carriers).
Proof.
  intros Hr Htag carriers.
  destruct (create_tasks_table_returns exp_info) as (rows & Hrows & Hall).
  { intros ->. by apply elem_of_nil in Hr. }
  set (tags := concat (map (fun r' => Tags (snd r')) exp_info)) in *.
  assert (tag ∈ unique_names tags) as Hname.
  { apply unique_names_elem. unfold tags. apply list_elem_of_In, in_concat.
    exists (Tags (snd r)). split; [| by apply list_elem_of_In].
    apply in_map_iff. exists r. split; [done | by apply list_elem_of_In]. }
  apply list_elem_of_lookup in Hname as [i Hi].
  destruct (Forall2_lookup_l _ _ _ _ _ Hall Hi) as (t & Ht & Hrow).
  apply task_row_fields in Hrow as (Hn & Hc & Hidx & Hwho).
  exists (sort_by_num_exp (rows ++ [all_row exp_info])), t.
  split; [done |]. split.
  { rewrite sort_by_num_exp_permutation. apply elem_of_app. left.
    by eapply list_elem_of_lookup_2. }
  repeat split; try done.
  rewrite Hidx, map_fmap. apply list_elem_of_fmap_2. by apply list_elem_of_filter.
Qed.

Lemma tasks_table_lists_every_tag_witness :
  ∃ tasks t, create_tasks_table three_tagged = Ok tasks
    ∧ t ∈ tasks ∧ Name t = "visual" ∧ ExpIndex t = [0; 2].
Proof.
  destruct (tasks_table_lists_every_tag three_tagged
              (2, tagged_experiment "Chen 2010" 30 ["visual"]) "visual")
    as (tasks & t & Hrun & Hin & Hname & Hidx & _).
  - apply list_elem_of_In. cbn. tauto.
  - apply list_elem_of_In. cbn. tauto.
  - exists tasks, t. repeat split; try done; rewrite Hidx; by vm_compute.
Defined.

(** X19: on a table without experiments [create_tasks_table] raises
    [ValueError].  On any other table it returns a table whose rows are
    in descending order of [Num_Exp], with one row per distinct tag and
    the row named all; each row is the row named all or has the tag of
    some experiment as its name. *)
Theorem tasks_table_rows_and_order (exp_info : ExperimentFrame) :
  match exp_info with
  | [] => ∃ text, create_tasks_table exp_info = Raise (ValueError text)
  | _ =>
      let tags := concat (map (fun r => Tags (snd r)) exp_info) in
      ∃ tasks, create_tasks_table exp_info = Ok tasks
        ∧ StronglySorted (fun a b => Num_Exp b ≤ Num_Exp a) tasks
        ∧ length tasks = S (length (unique_names tags))
        ∧ all_row exp_info ∈ tasks
        ∧ ∀ t, t ∈ tasks →
            t = all_row exp_info ∨ ∃ r, r ∈ exp_info ∧ Name t ∈ Tags (snd r)
  end.
Proof.
  destruct exp_info as [| r rest]; [by eexists |].
  intros tags.
  destruct (create_tasks_table_returns (r :: rest)) as (rows & Hrows & Hall); [done |].
  fold tags in Hall.
  exists (sort_by_num_exp (rows ++ [all_row (r :: rest)])).
  split; [done |]. split; [apply sort_by_num_exp_sorted |]. split; [| split].
  - rewrite sort_by_num_exp_permutation, length_app. cbn [length].
    apply Forall2_length in Hall. lia.
  - rewrite sort_by_num_exp_permutation. apply elem_of_app. right. by left.
  - intros t Ht.
    destruct (create_tasks_table_rows _ _ _ Hrows Ht) as [-> | (task & Htask & Hrow)];
      [by left | right].
    apply task_row_fields in Hrow as (-> & _).
    apply list_elem_of_In, in_concat in Htask as (l & Hl & Htask).
    apply in_map_iff in Hl as (r' & <- & Hr').
    exists r'. split; by apply list_elem_of_In.
Qed.

(** X20: in every row of the table of tasks [Num_Exp] is at least the
    number of experiments listed in [ExpIndex]; the two agree when no
    experiment carries a tag twice. *)
Theorem tasks_count_occurrences (exp_info : ExperimentFrame) (tasks : list Task) (t : Task) :
  create_tasks_table exp_info = Ok tasks → t ∈ tasks →
  Z.of_nat (length (ExpIndex t)) ≤ Num_Exp t
  ∧ (Forall (fun r => NoDup (Tags (snd r))) exp_info →
     Num_Exp t = Z.of_nat (length (ExpIndex t))).
Proof.
  intros Hrun Ht.
  destruct (create_tasks_table_rows _ _ _ Hrun Ht) as [-> | (task & _ & Hrow)].
  - cbn [all_row ExpIndex Num_Exp]. unfold Pd.len. rewrite length_map, length_seq.
    split; [lia | done].
  - apply task_row_fields in Hrow as (_ & -> & -> & _). rewrite length_map.
    apply carriers_counted.
Qed.

Lemma tasks_count_occurrences_witness :
  Z.of_nat (length (ExpIndex (all_row three_tagged))) ≤ Num_Exp (all_row three_tagged).
Proof.
  eapply (tasks_count_occurrences three_tagged).
  - reflexivity.
  - vm_compute. apply list_elem_of_In. cbn. tauto.
Defined.

(** A tag twice on one experiment is counted twice. *)
Example tag_twice_counted_twice :
  create_tasks_table [(0, tagged_experiment "Abel 2001" 20 ["visual"; "visual"])]
  = Ok [{| Name := "visual"; Num_Exp := 2; Who := ["Abel 2001"];
           TotalSubjects := 20; ExpIndex := [0] |};
        {| Name := "all"; Num_Exp := 1; Who := ["Abel 2001"];
           TotalSubjects := 20; ExpIndex := [0] |}].
Proof. by vm_compute. Qed.
